(** * VAPI to Square Appointments connector: embedding and verification

    The repository holds three versions of one webhook handler:

    - [RootRoute]: src/api/index.js, first document, [app.post('/')];
    - [ApiIndexRoute]: src/api/index.js, second document,
      [app.post('/api/index.js')];
    - [Serverless]: src/unnamed/part_000, [module.exports = async (req, res)].

    The three share their structure and differ in a handful of places, each
    of which is a [match] on the [Version] below.  JavaScript values are
    embedded as a small JSON-like datatype, asynchronous effects (the three
    [fetch] calls, [Date.now()] and [Math.random()]) as a state-and-exception
    monad over an explicit world. *)

From Stdlib Require Import ZArith List String Ascii Bool Lia.
From Stdlib Require Import Decimal DecimalString DecimalZ DecimalPos.
Import ListNotations.

Set Warnings "-register-all".

Open Scope string_scope.
Open Scope list_scope.

(* ------------------------------------------------------------------ *)
(** * JavaScript values *)

(** Values that [JSON.parse] can produce, plus [undefined].  Numbers are
    the integers (rendered in decimal, as JavaScript does for integers below
    1e21); strings are sequences of code units. *)
Inductive JSValue : Type :=
| JUndefined
| JNull
| JBool (b : bool)
| JNum (n : Z)
| JStr (s : string)
| JArr (items : list JSValue)
| JObj (fields : list (string * JSValue)).

(** An [Error] object; the handlers read nothing of it but [message]. *)
Record JSError : Type := mkError { message : string }.

(** Completion of an evaluation: a value, or a thrown error. *)
Inductive Outcome (A : Type) : Type :=
| Returned (a : A)
| Thrown (e : JSError).
Arguments Returned {A} a.
Arguments Thrown {A} e.

(** What the engine, not the repository, decides: the text of the
    [TypeError]s it raises and the string-to-number conversion behind
    [x > 0] for a string [x]. *)
Class Engine : Type := {
  TypeError_nullish : JSValue -> string -> string;
  TypeError_not_a_function : string -> string;
  StringToNumber_positive : string -> bool
}.

(** [!!v] *)
Definition truthy (v : JSValue) : bool :=
  match v with
  | JUndefined | JNull => false
  | JBool b => b
  | JNum n => negb (Z.eqb n 0)
  | JStr s => negb (String.eqb s "")
  | JArr _ | JObj _ => true
  end.

(** Decimal rendering of an integer, as in [`${n}`]. *)
Definition Z_to_string (n : Z) : string :=
  NilZero.string_of_int (Z.to_int n).

(** [String(v)], also the conversion inside a template literal. *)
Fixpoint ToString (v : JSValue) : string :=
  match v with
  | JUndefined => "undefined"
  | JNull => "null"
  | JBool true => "true"
  | JBool false => "false"
  | JNum n => Z_to_string n
  | JStr s => s
  | JArr items =>
      String.concat ","
        (map (fun x => match x with
                       | JUndefined | JNull => ""
                       | _ => ToString x
                       end) items)
  | JObj _ => "[object Object]"
  end.

(** Own property of a parsed object ([undefined] when missing). *)
Fixpoint lookup (p : string) (fields : list (string * JSValue)) : JSValue :=
  match fields with
  | [] => JUndefined
  | (k, v) :: rest => if String.eqb k p then v else lookup p rest
  end.

Section JS.
Context {engine : Engine}.

(** [v.p] on a value that is neither [undefined] nor [null], for the
    property names the handlers read: own properties of objects, [length] of
    arrays and strings, and [undefined] otherwise.  This is also what a
    destructuring pattern [{ p } = v] binds. *)
Definition property (v : JSValue) (p : string) : JSValue :=
  match v with
  | JObj fields => lookup p fields
  | JArr items =>
      if String.eqb p "length" then JNum (Z.of_nat (List.length items))
      else JUndefined
  | JStr s =>
      if String.eqb p "length" then JNum (Z.of_nat (String.length s))
      else JUndefined
  | _ => JUndefined
  end.

(** [v.p]: reading a property of [undefined] or [null] throws. *)
Definition get (v : JSValue) (p : string) : Outcome JSValue :=
  match v with
  | JUndefined | JNull => Thrown (mkError (TypeError_nullish v p))
  | _ => Returned (property v p)
  end.

(** [v[i]] for a literal index [i]. *)
Definition get_index (v : JSValue) (i : nat) : Outcome JSValue :=
  match v with
  | JUndefined | JNull =>
      Thrown (mkError (TypeError_nullish v (Z_to_string (Z.of_nat i))))
  | JObj fields => Returned (lookup (Z_to_string (Z.of_nat i)) fields)
  | JArr items => Returned (nth i items JUndefined)
  | JStr s =>
      match String.get i s with
      | Some c => Returned (JStr (String c EmptyString))
      | None => Returned JUndefined
      end
  | JBool _ | JNum _ => Returned JUndefined
  end.

(** [v > 0] *)
Definition gt_zero (v : JSValue) : bool :=
  match v with
  | JUndefined | JNull => false
  | JBool b => b
  | JNum n => Z.ltb 0 n
  | JStr s => StringToNumber_positive s
  | JArr _ => StringToNumber_positive (ToString v)
  | JObj _ => false
  end.

(** [new Error(v).message]: absent argument leaves the empty default. *)
Definition Error_message (v : JSValue) : string :=
  match v with
  | JUndefined => ""
  | _ => ToString v
  end.

End JS.

(* ------------------------------------------------------------------ *)
(** * String operations used by the handlers *)

Definition is_line_break (c : ascii) : bool :=
  Ascii.eqb c "010"%char || Ascii.eqb c "013"%char.

(** [s.replace(/[\r\n]+/g, ' ')]: the flag records that the previous
    character belonged to the run being replaced. *)
Fixpoint collapse_breaks (in_run : bool) (s : string) : string :=
  match s with
  | EmptyString => EmptyString
  | String c rest =>
      if is_line_break c then
        if in_run then collapse_breaks true rest
        else String " "%char (collapse_breaks true rest)
      else String c (collapse_breaks false rest)
  end.

Definition replace_line_breaks (s : string) : string := collapse_breaks false s.

Definition is_digit_or_plus (c : ascii) : bool :=
  let n := nat_of_ascii c in
  ((48 <=? n)%nat && (n <=? 57)%nat) || Ascii.eqb c "+"%char.

(** [s.replace(/[^0-9+]/g, '')] *)
Fixpoint replace_non_phone_chars (s : string) : string :=
  match s with
  | EmptyString => EmptyString
  | String c rest =>
      if is_digit_or_plus c then String c (replace_non_phone_chars rest)
      else replace_non_phone_chars rest
  end.

(** [s.split(' ')]: cut at every space; always at least one part. *)
Fixpoint split_on_space (s : string) : list string :=
  match s with
  | EmptyString => [EmptyString]
  | String c rest =>
      if Ascii.eqb c " "%char then EmptyString :: split_on_space rest
      else match split_on_space rest with
           | [] => [String c EmptyString]
           | part :: parts => String c part :: parts
           end
  end.

(** [parts.join(' ')] *)
Definition join_with_space (parts : list string) : string :=
  String.concat " " parts.

(** [hay.includes(needle)] *)
Fixpoint includes (needle hay : string) : bool :=
  String.prefix needle hay ||
  match hay with
  | EmptyString => false
  | String _ rest => includes needle rest
  end.

(* ------------------------------------------------------------------ *)
(** * The world outside the handler *)

(** The three provider endpoints. *)
Inductive Endpoint : Type :=
| CustomersSearch   (* POST /v2/customers/search *)
| Customers         (* POST /v2/customers *)
| Bookings.         (* POST /v2/bookings *)

Definition Endpoint_eqb (a b : Endpoint) : bool :=
  match a, b with
  | CustomersSearch, CustomersSearch | Customers, Customers
  | Bookings, Bookings => true
  | _, _ => false
  end.

(** One outbound [fetch]: the endpoint, the [Authorization] header and the
    object handed to [JSON.stringify] as the body (the log keeps the object;
    serialisation drops the properties whose value is [undefined]). *)
Record Call : Type := mkCall {
  endpoint : Endpoint;
  authorization : string;
  request_body : JSValue
}.

(** What [response.json()] finds in the body. *)
Inductive BodyText : Type :=
| NotJson (syntax_error : string)
| Json (data : JSValue).

Record Response : Type := mkResponse {
  status : Z;
  body : BodyText
}.

(** [response.ok]: the status is in the range 200-299. *)
Definition ok (r : Response) : bool :=
  (200 <=? status r)%Z && (status r <=? 299)%Z.

(** A [fetch] promise rejects (network failure) or resolves to a response. *)
Inductive FetchResult : Type :=
| Rejected (reason : string)
| Resolved (r : Response).

(** The provider answers a call knowing the calls made before it; the clock
    and the random source are read once per generated key. *)
Record World : Type := mkWorld {
  upstream : list Call -> Call -> FetchResult;
  Date_now : nat -> Z;
  Math_random_suffix : nat -> string
    (* Math.random().toString(36).substring(2, 8) *)
}.

(** What a run has done so far: the calls sent, oldest first, and the number
    of keys generated. *)
Record State : Type := mkState {
  calls : list Call;
  keys_drawn : nat
}.

Definition initial : State := mkState [] 0.

(** Computations that read the world, change the state and may throw. *)
Definition M (A : Type) : Type := World -> State -> Outcome A * State.

Definition ret {A} (a : A) : M A := fun _ st => (Returned a, st).

Definition throw {A} (e : JSError) : M A := fun _ st => (Thrown e, st).

Definition bind {A B} (m : M A) (k : A -> M B) : M B :=
  fun w st =>
    match m w st with
    | (Returned a, st') => k a w st'
    | (Thrown e, st') => (Thrown e, st')
    end.

Definition lift {A} (o : Outcome A) : M A := fun _ st => (o, st).

(** [try { body } catch (error) { recover }] *)
Definition try_catch {A} (body : M A) (recover : JSError -> M A) : M A :=
  fun w st =>
    match body w st with
    | (Returned a, st') => (Returned a, st')
    | (Thrown e, st') => recover e w st'
    end.

Declare Scope js_scope.
Delimit Scope js_scope with js.
Notation "x <- m ;; k" := (bind m (fun x => k))
  (at level 61, m at next level, right associativity) : js_scope.
Open Scope js_scope.

(** [await fetch(url, ...)] *)
Definition fetch (c : Call) : M Response :=
  fun w st =>
    let st' := mkState (calls st ++ [c]) (keys_drawn st) in
    match upstream w (calls st) c with
    | Rejected reason => (Thrown (mkError reason), st')
    | Resolved r => (Returned r, st')
    end.

(** [await response.json()] *)
Definition json (r : Response) : M JSValue :=
  match body r with
  | NotJson syntax_error => throw (mkError syntax_error)
  | Json data => ret data
  end.

(** The two kinds of idempotency key. *)
Inductive KeyKind : Type := CustomerKey | BookingKey.

Definition key_prefix (k : KeyKind) : string :=
  match k with
  | CustomerKey => "vapi-customer-"
  | BookingKey => "vapi-booking-"
  end.

(** [`vapi-customer-${Date.now()}-${Math.random().toString(36).substring(2, 8)}`]
    from a clock reading and a random suffix. *)
Definition make_key (k : KeyKind) (now : Z) (suffix : string) : string :=
  key_prefix k ++ Z_to_string now ++ "-" ++ suffix.

(** Generating a key reads the clock and the random source. *)
Definition idempotency_key (k : KeyKind) : M string :=
  fun w st =>
    (Returned (make_key k (Date_now w (keys_drawn st))
                          (Math_random_suffix w (keys_drawn st))),
     mkState (calls st) (S (keys_drawn st))).

(* ------------------------------------------------------------------ *)
(** * The handlers *)

Inductive Version : Type :=
| RootRoute       (* src/api/index.js, app.post('/') *)
| ApiIndexRoute   (* src/api/index.js, app.post('/api/index.js') *)
| Serverless.     (* src/unnamed/part_000, module.exports *)

(** The four module-level constants.  [process.env.X] is a string or
    [undefined]. *)
Record Config : Type := mkConfig {
  TOKEN : option string;
  LOCATION_ID : option string;
  SERVICE_ID : option string;
  TEAM_ID : option string
}.

Definition env_value (x : option string) : JSValue :=
  match x with
  | Some s => JStr s
  | None => JUndefined
  end.

(** [x || fallback] on an environment variable. *)
Definition env_or (x : option string) (fallback : string) : option string :=
  if truthy (env_value x) then x else Some fallback.

(** The constants of [RootRoute] and [ApiIndexRoute], all from the
    environment. *)
Definition config_from_env (process_env : string -> option string) : Config :=
  {| TOKEN := process_env "SQUARE_TOKEN";
     LOCATION_ID := process_env "SQUARE_LOCATION_ID";
     SERVICE_ID := process_env "SQUARE_SERVICE_ID";
     TEAM_ID := process_env "SQUARE_TEAM_ID" |}.

(** The constants of [Serverless]: [TOKEN] is bound to a string literal of the
    source (its text is left out of this development and taken as
    [token_literal]), the identifiers fall back to placeholders. *)
Definition config_serverless (token_literal : string)
    (process_env : string -> option string) : Config :=
  {| TOKEN := Some token_literal;
     LOCATION_ID := env_or (process_env "SQUARE_LOCATION_ID") "INVALID_LOCATION";
     SERVICE_ID := env_or (process_env "SQUARE_SERVICE_ID") "INVALID_SERVICE";
     TEAM_ID := env_or (process_env "SQUARE_TEAM_ID") "INVALID_TEAM" |}.

(** The inbound request: [req.method] and the parsed [req.body]
    ([undefined] when there is none). *)
Record Request : Type := mkRequest {
  method : string;
  req_body : JSValue
}.

(** What the handler sends back. *)
Inductive Payload : Type :=
| SendText (text : string)   (* res.send(text) *)
| SendJson (value : JSValue). (* res.json(value) *)

Record HttpResponse : Type := mkHttp {
  http_status : Z;
  payload : Payload
}.

(** [{ results: [{ toolCallId: id, result: text }] }], the object handed to
    [res.json]; an [undefined] [toolCallId] leaves no key in the JSON sent. *)
Definition envelope (id : JSValue) (text : string) : JSValue :=
  JObj [("results", JArr [JObj [("toolCallId", id); ("result", JStr text)]])].

Definition configuration_error : string :=
  "Configuration Error: Missing required booking data (name or service) or invalid function name.".

(** [v !== 'schedule_square_appointment'] is the negation of this. *)
Definition strict_equal_string (v : JSValue) (lit : string) : bool :=
  match v with
  | JStr s => String.eqb s lit
  | _ => false
  end.

(** [a || b] *)
Definition or_else (a b : JSValue) : JSValue := if truthy a then a else b.

Section Handlers.
Context {engine : Engine}.
Variable version : Version.
Variable config : Config.

(** Only [Serverless] looks at the method (Express routes nothing but POST to
    the other two). *)
Definition checks_method : bool :=
  match version with Serverless => true | _ => false end.

(** [searchCustomer] and [createCustomer] test [response.ok] in [RootRoute]
    and [Serverless], not in [ApiIndexRoute]. *)
Definition checks_customer_status : bool :=
  match version with ApiIndexRoute => false | _ => true end.

(** [data.errors ? data.errors[0].detail : fallback], the argument of
    [new Error], as the message of the error built from it. *)
Definition error_detail_or (data : JSValue) (fallback : string) : Outcome string :=
  match get data "errors" with
  | Thrown e => Thrown e
  | Returned errors =>
      if truthy errors then
        match get_index errors 0 with
        | Thrown e => Thrown e
        | Returned first =>
            match get first "detail" with
            | Thrown e => Thrown e
            | Returned detail => Returned (Error_message detail)
            end
        end
      else Returned fallback
  end.

(** [throw new Error(data.errors ? data.errors[0].detail : fallback)] *)
Definition provider_error {A} (data : JSValue) (fallback : string) : Outcome A :=
  match error_detail_or data fallback with
  | Thrown e => Thrown e
  | Returned msg => Thrown (mkError msg)
  end.

(** The phone value sent in the search filter: [Serverless] cleans it with
    [phone.replace(/[^0-9+]/g, '')], the others send it as it is. *)
Definition search_phone (phone : JSValue) : Outcome JSValue :=
  match version with
  | Serverless =>
      match phone with
      | JStr s => Returned (JStr (replace_non_phone_chars s))
      | JUndefined | JNull =>
          Thrown (mkError (TypeError_nullish phone "replace"))
      | _ => Thrown (mkError (TypeError_not_a_function "phone.replace"))
      end
  | _ => Returned phone
  end.

Definition bearer (token : JSValue) : string := "Bearer " ++ ToString token.

(** The request of [searchCustomer]. *)
Definition search_call (exact token : JSValue) : Call :=
  mkCall CustomersSearch (bearer token)
    (JObj [("query", JObj [("filter", JObj [("phone_number",
             JObj [("exact", exact)])])])]).

(** [(data.customers && data.customers.length > 0) ? data.customers[0].id : null] *)
Definition first_customer_id (data : JSValue) : Outcome JSValue :=
  match get data "customers" with
  | Thrown e => Thrown e
  | Returned customers =>
      if truthy customers then
        match get customers "length" with
        | Thrown e => Thrown e
        | Returned len =>
            if gt_zero len then
              match get_index customers 0 with
              | Thrown e => Thrown e
              | Returned first => get first "id"
              end
            else Returned JNull
        end
      else Returned JNull
  end.

(** [searchCustomer] after its two [await]s: the status test, where the
    version has one, and the returned expression. *)
Definition search_outcome (response : Response) (data : JSValue) : Outcome JSValue :=
  if checks_customer_status && negb (ok response) then
    provider_error data
      ("Search Customer HTTP Error " ++ Z_to_string (status response)
         ++ " from Square.")
  else first_customer_id data.

Definition searchCustomer (phone token : JSValue) : M JSValue :=
  exact <- lift (search_phone phone) ;;
  response <- fetch (search_call exact token) ;;
  data <- json response ;;
  lift (search_outcome response data).

(** [fullName.split(' ')] *)
Definition split_full_name (fullName : JSValue) : Outcome (list string) :=
  match fullName with
  | JStr s => Returned (split_on_space s)
  | JUndefined | JNull => Thrown (mkError (TypeError_nullish fullName "split"))
  | _ => Thrown (mkError (TypeError_not_a_function "fullName.split"))
  end.

(** [parts[0]] *)
Definition given_name (parts : list string) : JSValue :=
  match parts with
  | [] => JUndefined
  | first :: _ => JStr first
  end.

(** [parts.length > 1 ? parts.slice(1).join(' ') : 'Client'] *)
Definition family_name (parts : list string) : string :=
  if (1 <? List.length parts)%nat then join_with_space (skipn 1 parts)
  else "Client".

(** The request of [createCustomer]. *)
Definition customer_call (key : string) (parts : list string)
    (phone token : JSValue) : Call :=
  mkCall Customers (bearer token)
    (JObj [("idempotency_key", JStr key);
           ("given_name", given_name parts);
           ("family_name", JStr (family_name parts));
           ("phone_number", phone)]).

(** [data.customer ? data.customer.id : null] *)
Definition created_customer_id (data : JSValue) : Outcome JSValue :=
  match get data "customer" with
  | Thrown e => Thrown e
  | Returned customer =>
      if truthy customer then get customer "id" else Returned JNull
  end.

(** [createCustomer] after its two [await]s. *)
Definition create_outcome (response : Response) (data : JSValue) : Outcome JSValue :=
  if checks_customer_status && negb (ok response) then
    provider_error data
      ("Create Customer HTTP Error " ++ Z_to_string (status response)
         ++ " from Square.")
  else created_customer_id data.

Definition createCustomer (fullName phone token : JSValue) : M JSValue :=
  parts <- lift (split_full_name fullName) ;;
  key <- idempotency_key CustomerKey ;;
  response <- fetch (customer_call key parts phone token) ;;
  data <- json response ;;
  lift (create_outcome response data).

(** The status-code message of [createSquareBooking]. *)
Definition booking_http_error (st : Z) : string :=
  match version with
  | ApiIndexRoute => "HTTP Error " ++ Z_to_string st ++ " from Square."
  | _ => "Booking HTTP Error " ++ Z_to_string st ++ " from Square."
  end.

Definition no_booking_object : string :=
  "Square accepted request but returned no booking object (e.g., time slot unavailable).".

(** The request of [createSquareBooking]. *)
Definition booking_call (key : string) (customerId startTime token : JSValue) : Call :=
  mkCall Bookings (bearer token)
    (JObj [("booking", JObj [
              ("start_at", startTime);
              ("location_id", env_value (LOCATION_ID config));
              ("customer_id", customerId);
              ("appointment_segments", JArr [JObj [
                 ("service_variation_id", env_value (SERVICE_ID config));
                 ("team_member_id", env_value (TEAM_ID config))]])]);
           ("idempotency_key", JStr key)]).

(** [createSquareBooking] after its two [await]s: the two tests and the
    success path. *)
Definition booking_outcome (response : Response) (data : JSValue) : Outcome JSValue :=
  if negb (ok response) then
    provider_error data (booking_http_error (status response))
  else
    match get data "booking" with
    | Thrown e => Thrown e
    | Returned booking =>
        if negb (truthy booking) then provider_error data no_booking_object
        else get booking "id"
    end.

Definition createSquareBooking (customerId startTime token : JSValue) : M JSValue :=
  key <- idempotency_key BookingKey ;;
  response <- fetch (booking_call key customerId startTime token) ;;
  data <- json response ;;
  lift (booking_outcome response data).

(** The destructured request: [vapiPayload = req.body || {}], its three
    fields, and the four fields of [args || {}]. *)
Definition vapiPayload (req : Request) : JSValue := or_else (req_body req) (JObj []).
Definition functionName (req : Request) : JSValue := property (vapiPayload req) "functionName".
Definition args (req : Request) : JSValue := property (vapiPayload req) "args".
Definition toolCallId (req : Request) : JSValue := property (vapiPayload req) "toolCallId".
Definition customer_name (req : Request) : JSValue := property (or_else (args req) (JObj [])) "customer_name".
Definition customer_phone (req : Request) : JSValue := property (or_else (args req) (JObj [])) "customer_phone".
Definition start_time (req : Request) : JSValue := property (or_else (args req) (JObj [])) "start_time".
Definition service_name (req : Request) : JSValue := property (or_else (args req) (JObj [])) "service_name".

(** The condition of the INPUT VALIDATION [if]. *)
Definition rejects (req : Request) : bool :=
  negb (strict_equal_string (functionName req) "schedule_square_appointment")
  || negb (truthy (customer_name req))
  || negb (truthy (service_name req))
  || negb (truthy (env_value (TOKEN config))).

Definition secure_customer_failure : string :=
  "Failed to secure customer ID for booking.".

(** Customer resolution: the first three statements of the [try] block. *)
Definition resolve_customer (name phone token : JSValue) : M JSValue :=
  customer_id <- searchCustomer phone token ;;
  customer_id <- (if negb (truthy customer_id)
                  then createCustomer name phone token
                  else ret customer_id) ;;
  if negb (truthy customer_id) then throw (mkError secure_customer_failure)
  else ret customer_id.

(** The text of the success result. *)
Definition success_text (bookingId : JSValue) (req : Request) : string :=
  match version with
  | ApiIndexRoute =>
      "Great! I've confirmed your appointment. Your booking ID is "
        ++ ToString bookingId ++ ". The service is "
        ++ ToString (service_name req) ++ " at "
        ++ ToString (start_time req) ++ "."
  | _ => "Booking success. ID: " ++ ToString bookingId ++ "."
  end.

(** [error.message ? error.message.replace(/[\r\n]+/g, ' ') : 'Unknown API Error.'] *)
Definition failure_detail (error : JSError) : string :=
  if truthy (JStr (message error)) then replace_line_breaks (message error)
  else "Unknown API Error.".

(** The text of the failure result. *)
Definition failure_text (error : JSError) : string :=
  match version with
  | ApiIndexRoute =>
      "I encountered a system error and could not finalize the booking. Failure Detail: "
        ++ message error
  | _ => "Booking failed. Failure Detail: " ++ failure_detail error
  end.

(** [res.status(200).json({ results: [{ toolCallId: id, result: text }] })] *)
Definition respond (id : JSValue) (text : string) : M HttpResponse :=
  ret (mkHttp 200 (SendJson (envelope id text))).

(** The body of the [try] block. *)
Definition try_block (req : Request) : M HttpResponse :=
  let token := env_value (TOKEN config) in
  customer_id <- resolve_customer (customer_name req) (customer_phone req) token ;;
  bookingId <- createSquareBooking customer_id (start_time req) token ;;
  respond (toolCallId req) (success_text bookingId req).

(** The [catch] block. *)
Definition catch_block (req : Request) (error : JSError) : M HttpResponse :=
  respond (toolCallId req) (failure_text error).

(** The request reaches the validation: it is a POST wherever the method is
    looked at. *)
Definition handled (req : Request) : Prop :=
  checks_method = true -> method req = "POST".

Definition handler (req : Request) : M HttpResponse :=
  if checks_method && negb (String.eqb (method req) "POST") then
    ret (mkHttp 405 (SendText "Method Not Allowed"))
  else if rejects req then
    respond (or_else (toolCallId req) (JStr "test-error")) configuration_error
  else
    try_catch (try_block req) (catch_block req).

End Handlers.

(** The calls a run added to the log. *)
Definition calls_since (before after : State) : list Call :=
  skipn (List.length (calls before)) (calls after).

(** Number of logged calls to an endpoint. *)
Definition count_calls (e : Endpoint) (log : list Call) : nat :=
  List.length (filter (fun c => Endpoint_eqb (endpoint c) e) log).

(** The entries of the [results] array of a response, if it has one. *)
Definition result_entries (r : HttpResponse) : option (list JSValue) :=
  match payload r with
  | SendJson (JObj fields) =>
      match lookup "results" fields with
      | JArr entries => Some entries
      | _ => None
      end
  | _ => None
  end.

(* ------------------------------------------------------------------ *)
(** * A concrete engine and concrete worlds *)

(** Strings of decimal digits with a non-zero digit among them. *)
Fixpoint digits_positive (seen_nonzero : bool) (s : string) : bool :=
  match s with
  | EmptyString => seen_nonzero
  | String c rest =>
      let n := nat_of_ascii c in
      ((48 <=? n)%nat && (n <=? 57)%nat)
      && digits_positive (seen_nonzero || negb (n =? 48)%nat) rest
  end.

(** An engine with the message texts of V8.  Its string-to-number test
    decides plain digit strings only; nothing proved below depends on the
    choice, every theorem holds for all engines. *)
Definition v8 : Engine :=
  {| TypeError_nullish := fun v p =>
       ("Cannot read properties of " ++ ToString v ++ " (reading '" ++ p ++ "')")%string;
     TypeError_not_a_function := fun e => (e ++ " is not a function")%string;
     StringToNumber_positive := fun s =>
       match s with EmptyString => false | _ => digits_positive false s end |}.

(** A provider that answers each endpoint with a fixed response. *)
Definition provider (search create booking : FetchResult)
    (_ : list Call) (c : Call) : FetchResult :=
  match endpoint c with
  | CustomersSearch => search
  | Customers => create
  | Bookings => booking
  end.

Definition ok_json (data : JSValue) : FetchResult :=
  Resolved (mkResponse 200 (Json data)).

(** A world with a fixed provider, a clock that advances by one millisecond
    per reading and a fixed random suffix. *)
Definition sample_world (search create booking : FetchResult) : World :=
  {| upstream := provider search create booking;
     Date_now := fun n => (1735725600000 + Z.of_nat n)%Z;
     Math_random_suffix := fun _ => "k3x9qa" |}.

(** A world whose clock stands still and whose random source repeats. *)
Definition frozen_world (search create booking : FetchResult) : World :=
  {| upstream := provider search create booking;
     Date_now := fun _ => 1735725600000%Z;
     Math_random_suffix := fun _ => "k3x9qa" |}.

Definition sample_config : Config :=
  {| TOKEN := Some "sq0atp-token"; LOCATION_ID := Some "LOC1";
     SERVICE_ID := Some "SVC1"; TEAM_ID := Some "TEAM1" |}.

(** The arguments of the scenario of the specification. *)
Definition jane_args : JSValue :=
  JObj [("customer_name", JStr "Jane Doe");
        ("customer_phone", JStr "+15551234567");
        ("start_time", JStr "2025-01-01T10:00:00Z");
        ("service_name", JStr "Haircut")].

(** The request of that scenario. *)
Definition jane_request : Request :=
  mkRequest "POST"
    (JObj [("functionName", JStr "schedule_square_appointment");
           ("toolCallId", JStr "abc");
           ("args", jane_args)]).

(** The same request without a [toolCallId]. *)
Definition jane_request_without_id : Request :=
  mkRequest "POST"
    (JObj [("functionName", JStr "schedule_square_appointment");
           ("args", jane_args)]).

(** The provider of that scenario: no match, then the new customer, then the
    booking. *)
Definition jane_world : World :=
  sample_world (ok_json (JObj [("customers", JArr [])]))
               (ok_json (JObj [("customer", JObj [("id", JStr "CUST1")])]))
               (ok_json (JObj [("booking", JObj [("id", JStr "BOOK1")])])).

(** Two key generations, one after the other. *)
Definition two_keys (k1 k2 : KeyKind) : M (string * string) :=
  a <- idempotency_key k1 ;;
  b <- idempotency_key k2 ;;
  ret (a, b).

(** The [idempotency_key] fields of the calls in a log. *)
Definition logged_keys (log : list Call) : list JSValue :=
  filter truthy (map (fun c => property (request_body c) "idempotency_key") log).

(* ------------------------------------------------------------------ *)
(** * The name split as the specification words it *)

(** Whitespace in the sense of [\s], within ASCII. *)
Definition is_whitespace (c : ascii) : bool :=
  let n := nat_of_ascii c in
  (n =? 32)%nat || ((9 <=? n)%nat && (n <=? 13)%nat).

(** Cut at every whitespace character. *)
Fixpoint cut_on_whitespace (s : string) : list string :=
  match s with
  | EmptyString => [EmptyString]
  | String c rest =>
      if is_whitespace c then EmptyString :: cut_on_whitespace rest
      else match cut_on_whitespace rest with
           | [] => [String c EmptyString]
           | part :: parts => String c part :: parts
           end
  end.

(** The tokens of a name: its maximal runs of non-whitespace characters. *)
Definition whitespace_tokens (s : string) : list string :=
  filter (fun t => negb (String.eqb t "")) (cut_on_whitespace s).

(** "First token is the given name." *)
Definition spec_given_name (s : string) : string :=
  hd "" (whitespace_tokens s).

(** "Remaining tokens joined by spaces form the family name, defaulting to a
    fixed placeholder family name if only one token was supplied." *)
Definition spec_family_name (s : string) : string :=
  match whitespace_tokens s with
  | _ :: (_ :: _) as remaining => join_with_space remaining
  | _ => "Client"
  end.

(** Predicates on strings used in the statements. *)
Fixpoint string_forallb (f : ascii -> bool) (s : string) : bool :=
  match s with
  | EmptyString => true
  | String c rest => f c && string_forallb f rest
  end.

Definition no_line_break (s : string) : bool :=
  string_forallb (fun c => negb (is_line_break c)) s.

Definition no_space (s : string) : bool :=
  string_forallb (fun c => negb (Ascii.eqb c " "%char)) s.

Definition is_digit (c : ascii) : bool :=
  let n := nat_of_ascii c in (48 <=? n)%nat && (n <=? 57)%nat.

(** A name with a tab between its two words. *)
Definition jane_tab_doe : string := "Jane" ++ String "009"%char "Doe".

(** A provider detail of two lines. *)
Definition two_line_detail : string :=
  "Slot taken" ++ String "010"%char "Try later".

Definition error_json (st : Z) (detail : string) : FetchResult :=
  Resolved (mkResponse st
    (Json (JObj [("errors", JArr [JObj [("detail", JStr detail)]])]))).

(** The provider of the scenario, except that the booking is refused with a
    detail of two lines. *)
Definition conflict_world : World :=
  sample_world (ok_json (JObj [("customers", JArr [])]))
               (ok_json (JObj [("customer", JObj [("id", JStr "CUST1")])]))
               (error_json 400 two_line_detail).

(** The provider of the scenario, except that the search fails with status
    500. *)
Definition failing_search_world : World :=
  sample_world (error_json 500 "Internal server error.")
               (ok_json (JObj [("customer", JObj [("id", JStr "CUST1")])]))
               (ok_json (JObj [("booking", JObj [("id", JStr "BOOK1")])])).

(** The provider of the scenario on a machine whose clock and random source
    repeat. *)
Definition jane_frozen_world : World :=
  frozen_world (ok_json (JObj [("customers", JArr [])]))
               (ok_json (JObj [("customer", JObj [("id", JStr "CUST1")])]))
               (ok_json (JObj [("booking", JObj [("id", JStr "BOOK1")])])).

(** A request for another function. *)
Definition cancel_request : Request :=
  mkRequest "POST"
    (JObj [("functionName", JStr "cancel_square_appointment");
           ("toolCallId", JStr "abc");
           ("args", jane_args)]).

(** The request of the scenario without a phone number. *)
Definition jane_request_without_phone : Request :=
  mkRequest "POST"
    (JObj [("functionName", JStr "schedule_square_appointment");
           ("toolCallId", JStr "abc");
           ("args", JObj [("customer_name", JStr "Jane Doe");
                          ("start_time", JStr "2025-01-01T10:00:00Z");
                          ("service_name", JStr "Haircut")])]).

(** A provider that finds no customer and answers the creation with an
    empty object. *)
Definition no_customer_world : World :=
  sample_world (ok_json (JObj [])) (ok_json (JObj []))
               (ok_json (JObj [("booking", JObj [("id", JStr "BOOK1")])])).

(* ------------------------------------------------------------------ *)
(** * Vocabulary for the statements *)

(** The state after one more call. *)
Definition sent (c : Call) (st : State) : State :=
  mkState (calls st ++ [c]) (keys_drawn st).

(** The state after one more key. *)
Definition drawn (st : State) : State :=
  mkState (calls st) (S (keys_drawn st)).

(** A response is awaited, then its body: what the helper continues with. *)
Definition awaited {A} (w : World) (st : State) (c : Call)
    (k : Response -> JSValue -> Outcome A) : Outcome A :=
  match upstream w (calls st) c with
  | Rejected reason => Thrown (mkError reason)
  | Resolved r =>
      match body r with
      | NotJson syntax_error => Thrown (mkError syntax_error)
      | Json data => k r data
      end
  end.

(** The key that the next generation yields. *)
Definition next_key (k : KeyKind) (w : World) (st : State) : string :=
  make_key k (Date_now w (keys_drawn st)) (Math_random_suffix w (keys_drawn st)).

(* ------------------------------------------------------------------ *)
(** * Further vocabulary and worlds *)

(** A phone value that the cleaning of [Serverless] leaves as it is. *)
Definition is_clean_phone (s : string) : bool :=
  string_forallb is_digit_or_plus s.

(** How the success text of a version begins. *)
Definition success_prefix (version : Version) : string :=
  match version with
  | ApiIndexRoute => "Great! I've confirmed your appointment. Your booking ID is "
  | _ => "Booking success. ID: "
  end.

(** The filter value of a search call: [body.query.filter.phone_number.exact]. *)
Definition search_exact (c : Call) : JSValue :=
  property (property (property (property (request_body c) "query") "filter")
              "phone_number") "exact".

(** The fields of the [booking] object of a booking call. *)
Definition booking_field (c : Call) (p : string) : JSValue :=
  property (property (request_body c) "booking") p.

(** The identifiers of the single appointment segment of a booking call. *)
Definition segment_field (c : Call) (p : string) : JSValue :=
  match booking_field c "appointment_segments" with
  | JArr [segment] => property segment p
  | _ => JUndefined
  end.

(** The shapes a sequence of calls of one request can have. *)
Definition request_endpoints : list (list Endpoint) :=
  [ [];
    [CustomersSearch];
    [CustomersSearch; Customers];
    [CustomersSearch; Bookings];
    [CustomersSearch; Customers; Bookings] ].

(** A provider that knows the customer of the scenario. *)
Definition found_world : World :=
  sample_world (ok_json (JObj [("customers", JArr [JObj [("id", JStr "CUST7")]])]))
               (ok_json (JObj [("customer", JObj [("id", JStr "CUST1")])]))
               (ok_json (JObj [("booking", JObj [("id", JStr "BOOK1")])])).

(** A provider that cannot be reached. *)
Definition offline_world : World :=
  sample_world (Rejected "fetch failed") (Rejected "fetch failed")
               (Rejected "fetch failed").

(** The request of the scenario sent with another method. *)
Definition jane_get_request : Request :=
  mkRequest "GET" (req_body jane_request).

(** The request of the scenario with a number for a name and a phone number
    written with punctuation. *)
Definition numeric_name_request : Request :=
  mkRequest "POST"
    (JObj [("functionName", JStr "schedule_square_appointment");
           ("toolCallId", JStr "abc");
           ("args", JObj [("customer_name", JNum 42);
                          ("customer_phone", JStr "+1 (555) 123-4567");
                          ("start_time", JStr "2025-01-01T10:00:00Z");
                          ("service_name", JStr "Haircut")])]).

(** A call whose answer never arrives as JSON: the [fetch] is rejected, or
    the body of the response does not parse. *)
Definition transport_fails (w : World) (st : State) (c : Call) (msg : string) : Prop :=
  upstream w (calls st) c = Rejected msg
  \/ exists code, upstream w (calls st) c = Resolved (mkResponse code (NotJson msg)).

(** Providers of the scenario that refuse or lose the booking in other
    ways: with an error that has a code and no detail; with an empty list of
    errors; with a body that is no JSON; with a bare status; and with a
    success status and an empty object. *)
Definition undetailed_world : World :=
  sample_world (ok_json (JObj [("customers", JArr [])]))
               (ok_json (JObj [("customer", JObj [("id", JStr "CUST1")])]))
               (Resolved (mkResponse 400
                  (Json (JObj [("errors",
                                JArr [JObj [("code", JStr "BAD_REQUEST")]])])))).

Definition empty_errors_world : World :=
  sample_world (ok_json (JObj [("customers", JArr [])]))
               (ok_json (JObj [("customer", JObj [("id", JStr "CUST1")])]))
               (Resolved (mkResponse 400 (Json (JObj [("errors", JArr [])])))).

Definition bad_gateway_world : World :=
  sample_world (ok_json (JObj [("customers", JArr [])]))
               (ok_json (JObj [("customer", JObj [("id", JStr "CUST1")])]))
               (Resolved (mkResponse 502
                  (NotJson "Unexpected token < in JSON at position 0"))).

Definition bare_status_world : World :=
  sample_world (ok_json (JObj [("customers", JArr [])]))
               (ok_json (JObj [("customer", JObj [("id", JStr "CUST1")])]))
               (Resolved (mkResponse 409 (Json (JObj [])))).

Definition no_booking_world : World :=
  sample_world (ok_json (JObj [("customers", JArr [])]))
               (ok_json (JObj [("customer", JObj [("id", JStr "CUST1")])]))
               (ok_json (JObj [])).

Open Scope string_scope.

(* ------------------------------------------------------------------ *)
(** * Strings *)

Lemma append_inj_l (p a b : string) : p ++ a = p ++ b -> a = b.
Proof.
  induction p as [|x p IH]; simpl; intros H; [exact H|].
  injection H as H. now apply IH.
Qed.

Lemma prefix_append (a b : string) : String.prefix a (a ++ b) = true.
Proof.
  induction a as [|x a IH]; simpl.
  - now destruct b.
  - destruct (ascii_dec x x) as [_|N]; [exact IH | now elim N].
Qed.

Lemma includes_prefix (needle hay : string) :
  String.prefix needle hay = true -> includes needle hay = true.
Proof. destruct hay; simpl; intros ->; reflexivity. Qed.

Lemma includes_append (needle before after : string) :
  includes needle (before ++ needle ++ after) = true.
Proof.
  induction before as [|x before IH].
  - change (includes needle (needle ++ after) = true).
    apply includes_prefix, prefix_append.
  - change (includes needle (String x (before ++ needle ++ after)) = true).
    simpl. rewrite IH. apply orb_true_r.
Qed.

(* ------------------------------------------------------------------ *)
(** * Decimal rendering *)

Lemma uint_digits (d : uint) :
  string_forallb is_digit (NilEmpty.string_of_uint d) = true.
Proof. induction d; simpl; auto. Qed.

Lemma uint_string_shape (d : uint) :
  exists c rest, NilZero.string_of_uint d = String c rest
    /\ is_digit c = true /\ string_forallb is_digit rest = true.
Proof.
  destruct d; simpl; eexists _, _; (split; [reflexivity|]);
    split; try reflexivity; apply uint_digits.
Qed.

(** A run of digits followed by a dash determines both the run and what
    follows the dash. *)
Lemma digits_dash_split (a b s1 s2 : string) :
  string_forallb is_digit a = true ->
  string_forallb is_digit b = true ->
  a ++ String "-" s1 = b ++ String "-" s2 ->
  a = b /\ s1 = s2.
Proof.
  revert b. induction a as [|x a IH]; intros [|y b] Ha Hb E; simpl in *.
  - injection E as E. now split.
  - injection E as E1 E2. subst y. discriminate Hb.
  - injection E as E1 E2. subst x. discriminate Ha.
  - injection E as E1 E2. subst y.
    apply andb_true_iff in Ha as [_ Ha]. apply andb_true_iff in Hb as [_ Hb].
    destruct (IH b Ha Hb E2) as [-> ->]. now split.
Qed.

Lemma Z_to_string_inj (n m : Z) : Z_to_string n = Z_to_string m -> n = m.
Proof.
  unfold Z_to_string. intros E.
  apply DecimalZ.to_int_inj.
  assert (nonnil : forall z, Z.to_int z <> Pos Nil /\ Z.to_int z <> Neg Nil).
  { intros [|p|p]; simpl; split; try discriminate;
      intros [= H]; now apply (Unsigned.to_uint_nonnil p). }
  destruct (nonnil n) as [n1 n2], (nonnil m) as [m1 m2].
  apply (f_equal NilZero.int_of_string) in E.
  rewrite !NilZero.isi in E by assumption.
  now injection E.
Qed.

(** The rendered clock reading and the suffix can be read back from what
    follows the prefix of a key. *)
Lemma key_tail_inj (t1 t2 : Z) (s1 s2 : string) :
  Z_to_string t1 ++ "-" ++ s1 = Z_to_string t2 ++ "-" ++ s2 ->
  t1 = t2 /\ s1 = s2.
Proof.
  intros E.
  assert (R : Z_to_string t1 = Z_to_string t2 /\ s1 = s2).
  { unfold Z_to_string in *.
    destruct (Z.to_int t1) as [a|a], (Z.to_int t2) as [b|b]; simpl in E |- *;
      destruct (uint_string_shape a) as (ca & ra & Ea & Ca & Ra);
      destruct (uint_string_shape b) as (cb & rb & Eb & Cb & Rb).
    - apply digits_dash_split in E as [E ->]; [now split | |];
        [rewrite Ea | rewrite Eb]; simpl; now apply andb_true_iff.
    - rewrite Ea in E. simpl in E. injection E as E _. subst ca. discriminate Ca.
    - rewrite Eb in E. simpl in E. injection E as E _. subst cb. discriminate Cb.
    - injection E as E.
      apply digits_dash_split in E as [E ->]; [now rewrite E | |];
        [rewrite Ea | rewrite Eb]; simpl; now apply andb_true_iff. }
  destruct R as [R ->]. split; [now apply Z_to_string_inj | reflexivity].
Qed.

Lemma make_key_inj (k1 k2 : KeyKind) (t1 t2 : Z) (s1 s2 : string) :
  make_key k1 t1 s1 = make_key k2 t2 s2 -> k1 = k2 /\ t1 = t2 /\ s1 = s2.
Proof.
  unfold make_key. destruct k1, k2; intros E.
  - split; [reflexivity|]. eapply key_tail_inj, append_inj_l, E.
  - simpl in E. discriminate E.
  - simpl in E. discriminate E.
  - split; [reflexivity|]. eapply key_tail_inj, append_inj_l, E.
Qed.

(* ------------------------------------------------------------------ *)
(** * The log of calls *)

Lemma calls_since_refl (st : State) : calls_since st st = [].
Proof. unfold calls_since. apply skipn_all. Qed.

Lemma calls_since_app (st st' : State) (new : list Call) :
  calls st' = (calls st ++ new)%list -> calls_since st st' = new.
Proof.
  unfold calls_since. intros ->.
  rewrite skipn_app, skipn_all, Nat.sub_diag. reflexivity.
Qed.

(* ------------------------------------------------------------------ *)
(** * Line breaks *)

Lemma collapse_breaks_clean (in_run : bool) (s : string) :
  no_line_break (collapse_breaks in_run s) = true.
Proof.
  unfold no_line_break. revert in_run.
  induction s as [|c s IH]; intros in_run; simpl; [reflexivity|].
  destruct (is_line_break c) eqn:B.
  - destruct in_run; simpl; apply IH.
  - simpl. rewrite B. apply IH.
Qed.

Lemma collapse_breaks_none (in_run : bool) (s : string) :
  no_line_break s = true -> collapse_breaks in_run s = s.
Proof.
  unfold no_line_break. revert in_run.
  induction s as [|c s IH]; intros in_run H; simpl in *; [reflexivity|].
  apply andb_true_iff in H as [B H]. apply negb_true_iff in B.
  rewrite B. f_equal. now apply IH.
Qed.

(** A run of line breaks that follows text without any becomes one space,
    whatever its length. *)
Lemma collapse_breaks_run (a run b : string) :
  no_line_break a = true ->
  run <> "" ->
  string_forallb is_line_break run = true ->
  replace_line_breaks (a ++ run ++ b) = a ++ " " ++ collapse_breaks true b.
Proof.
  unfold replace_line_breaks, no_line_break.
  intros Ha Hne Hrun.
  assert (R : forall r, string_forallb is_line_break r = true ->
            collapse_breaks true (r ++ b) = collapse_breaks true b).
  { induction r as [|c r IH]; simpl; intros H; [reflexivity|].
    apply andb_true_iff in H as [-> H]. now apply IH. }
  induction a as [|c a IH]; simpl in *.
  - destruct run as [|c r]; [now elim Hne|]. simpl in *.
    apply andb_true_iff in Hrun as [-> Hr]. now rewrite (R r Hr).
  - apply andb_true_iff in Ha as [B Ha]. apply negb_true_iff in B.
    rewrite B. f_equal. now apply IH.
Qed.

(** After a run, the text up to the next line break is kept as it is. *)
Lemma collapse_breaks_resume (c : ascii) (s : string) :
  is_line_break c = false ->
  collapse_breaks true (String c s) = replace_line_breaks (String c s).
Proof. unfold replace_line_breaks. simpl. now intros ->. Qed.

(* ------------------------------------------------------------------ *)
(** * The handler, path by path *)

Section Paths.
Context {engine : Engine}.
Variable version : Version.
Variable config : Config.

Lemma handler_handled (req : Request) :
  handled version req ->
  handler version config req =
    if rejects config req then
      respond (or_else (toolCallId req) (JStr "test-error")) configuration_error
    else try_catch (try_block version config req) (catch_block version req).
Proof.
  unfold handled, handler. intros H.
  destruct (checks_method version); [|reflexivity].
  rewrite (H eq_refl). reflexivity.
Qed.

Lemma handler_not_post (req : Request) (w : World) (st : State) :
  method req <> "POST" ->
  handler Serverless config req w st
  = (Returned (mkHttp 405 (SendText "Method Not Allowed")), st).
Proof.
  unfold handler. simpl. intros H.
  apply String.eqb_neq in H. rewrite H. reflexivity.
Qed.

Lemma handler_rejected (req : Request) (w : World) (st : State) :
  handled version req -> rejects config req = true ->
  handler version config req w st
  = (Returned (mkHttp 200 (SendJson
       (envelope (or_else (toolCallId req) (JStr "test-error"))
                 configuration_error))), st).
Proof. intros H R. rewrite (handler_handled req H), R. reflexivity. Qed.

Lemma handler_caught (req : Request) (w : World) (st st' : State) (e : JSError) :
  handled version req -> rejects config req = false ->
  try_block version config req w st = (Thrown e, st') ->
  handler version config req w st
  = (Returned (mkHttp 200 (SendJson
       (envelope (toolCallId req) (failure_text version e)))), st').
Proof.
  intros H R T. rewrite (handler_handled req H), R.
  unfold try_catch. rewrite T. reflexivity.
Qed.

Lemma handler_succeeded (req : Request) (w : World) (st st' : State)
    (r : HttpResponse) :
  handled version req -> rejects config req = false ->
  try_block version config req w st = (Returned r, st') ->
  handler version config req w st = (Returned r, st').
Proof.
  intros H R T. rewrite (handler_handled req H), R.
  unfold try_catch. rewrite T. reflexivity.
Qed.

(** A [try] block that completes has created a booking and answers with its
    identifier. *)
Lemma try_block_returned (req : Request) (w : World) (st st' : State)
    (r : HttpResponse) :
  try_block version config req w st = (Returned r, st') ->
  exists customer_id st1 bookingId,
    resolve_customer version (customer_name req) (customer_phone req)
      (env_value (TOKEN config)) w st = (Returned customer_id, st1)
    /\ createSquareBooking version config customer_id (start_time req)
         (env_value (TOKEN config)) w st1 = (Returned bookingId, st')
    /\ r = mkHttp 200 (SendJson
             (envelope (toolCallId req) (success_text version bookingId req))).
Proof.
  unfold try_block, bind at 1.
  destruct (resolve_customer _ _ _ _ w st) as [[id|e] st1] eqn:R; [|discriminate].
  unfold bind at 1.
  destruct (createSquareBooking _ _ _ _ _ w st1) as [[b|e] st2] eqn:B;
    [|discriminate].
  unfold respond, ret. intros [= <- <-].
  exists id, st1, b. repeat split. exact B.
Qed.

(** A handled request is answered with status 200 and a [results] array of
    exactly one entry. *)
Lemma handler_one_entry (req : Request) (w : World) (st : State) :
  handled version req ->
  exists r st' id text,
    handler version config req w st = (Returned r, st')
    /\ http_status r = 200%Z
    /\ result_entries r = Some [JObj [("toolCallId", id); ("result", JStr text)]].
Proof.
  intros H. rewrite (handler_handled req H).
  destruct (rejects config req).
  - eexists _, _, _, _. repeat split.
  - unfold try_catch.
    destruct (try_block version config req w st) as [[r|e] st'] eqn:T.
    + apply try_block_returned in T as (id & st1 & b & _ & _ & ->).
      eexists _, _, _, _. repeat split.
    + eexists _, _, _, _. repeat split.
Qed.

(** No exception leaves the handler, whatever the request and the world. *)
Lemma handler_total (req : Request) (w : World) (st : State) :
  exists r st', handler version config req w st = (Returned r, st').
Proof.
  unfold handler.
  destruct (checks_method version && negb (method req =? "POST")).
  - eexists _, _. reflexivity.
  - destruct (rejects config req).
    + eexists _, _. reflexivity.
    + unfold try_catch.
      destruct (try_block version config req w st) as [[r|e] st'].
      * eexists _, _. reflexivity.
      * eexists _, _. reflexivity.
Qed.

(** Every handled version request is answered with status 200 and an envelope of one
    entry; the entry carries the inbound [toolCallId] itself, except on
    rejection, where a falsy one is replaced by ['test-error']. *)
Lemma handler_envelope (req : Request) (w : World) (st : State) :
  handled version req ->
  exists id text st',
    handler version config req w st
    = (Returned (mkHttp 200 (SendJson (envelope id text))), st')
    /\ id = if rejects config req
            then or_else (toolCallId req) (JStr "test-error")
            else toolCallId req.
Proof.
  intros H. rewrite (handler_handled req H).
  destruct (rejects config req).
  - eexists _, _, _. split; reflexivity.
  - unfold try_catch.
    destruct (try_block version config req w st) as [[r|e] st'] eqn:T.
    + apply try_block_returned in T as (id & st1 & b & _ & _ & ->).
      eexists _, _, _. split; reflexivity.
    + eexists _, _, _. split; reflexivity.
Qed.

End Paths.

(* ------------------------------------------------------------------ *)
(** * The three helpers, run against a world *)

Section Helpers.
Context {engine : Engine}.
Variable version : Version.
Variable config : Config.

Lemma searchCustomer_run (phone token : JSValue) (w : World) (st : State) :
  searchCustomer version phone token w st =
  match search_phone version phone with
  | Thrown e => (Thrown e, st)
  | Returned exact =>
      (awaited w st (search_call exact token) (search_outcome version),
       sent (search_call exact token) st)
  end.
Proof.
  unfold searchCustomer, bind, lift, fetch, json, awaited, sent, throw, ret.
  destruct (search_phone version phone) as [exact|e]; [|reflexivity].
  destruct (upstream w (calls st) _) as [reason|r]; [reflexivity|].
  destruct (body r); reflexivity.
Qed.

Lemma createCustomer_run (fullName phone token : JSValue) (w : World) (st : State) :
  createCustomer version fullName phone token w st =
  match split_full_name fullName with
  | Thrown e => (Thrown e, st)
  | Returned parts =>
      let c := customer_call (next_key CustomerKey w st) parts phone token in
      (awaited w (drawn st) c (create_outcome version), sent c (drawn st))
  end.
Proof.
  unfold createCustomer, bind, lift, fetch, json, awaited, sent, drawn, throw,
    ret, idempotency_key, next_key.
  destruct (split_full_name fullName) as [parts|e]; [|reflexivity].
  cbn [calls keys_drawn].
  destruct (upstream w (calls st) _) as [reason|r]; [reflexivity|].
  destruct (body r); reflexivity.
Qed.

Lemma createSquareBooking_run (customerId startTime token : JSValue)
    (w : World) (st : State) :
  createSquareBooking version config customerId startTime token w st =
  let c := booking_call config (next_key BookingKey w st) customerId startTime token in
  (awaited w (drawn st) c (booking_outcome version), sent c (drawn st)).
Proof.
  unfold createSquareBooking, bind, lift, fetch, json, awaited, sent, drawn,
    throw, ret, idempotency_key, next_key.
  cbn [calls keys_drawn].
  destruct (upstream w (calls st) _) as [reason|r]; [reflexivity|].
  destruct (body r); reflexivity.
Qed.

End Helpers.

Lemma calls_since_sent (st : State) (c : Call) :
  calls_since st (sent c st) = [c].
Proof. now apply calls_since_app. Qed.

Lemma calls_since_sent2 (st : State) (c c' : Call) :
  calls_since st (sent c' (drawn (sent c st))) = [c; c'].
Proof. apply calls_since_app. simpl. now rewrite <- app_assoc. Qed.

Section Resolution.
Context {engine : Engine}.
Variable version : Version.
Variable config : Config.

Lemma resolve_customer_run (name phone token : JSValue) (w : World) (st : State) :
  let search := searchCustomer version phone token w st in
  let create := createCustomer version name phone token w (snd search) in
  resolve_customer version name phone token w st =
  match fst search with
  | Thrown e => (Thrown e, snd search)
  | Returned id =>
      if truthy id then (Returned id, snd search)
      else match fst create with
           | Thrown e => (Thrown e, snd create)
           | Returned id' =>
               if truthy id' then (Returned id', snd create)
               else (Thrown (mkError secure_customer_failure), snd create)
           end
  end.
Proof.
  unfold resolve_customer, bind, ret, throw.
  destruct (searchCustomer version phone token w st) as [[id|e] st1]; simpl;
    [|reflexivity].
  destruct (truthy id) eqn:T; simpl.
  - rewrite T. reflexivity.
  - destruct (createCustomer version name phone token w st1) as [[id'|e] st2];
      simpl; [|reflexivity].
    destruct (truthy id'); reflexivity.
Qed.

(** The calls of a resolution: none, the search, or the search and then the
    creation, the latter only after a search that returned no identifier. *)
Lemma resolve_customer_calls (name phone token : JSValue) (w : World) (st : State) :
  let search := searchCustomer version phone token w st in
  let sent_calls :=
    calls_since st (snd (resolve_customer version name phone token w st)) in
  sent_calls = []
  \/ exists s, endpoint s = CustomersSearch
       /\ (sent_calls = [s]
           \/ exists c, endpoint c = Customers /\ sent_calls = [s; c]
                /\ exists id, fst search = Returned id /\ truthy id = false).
Proof.
  cbv zeta. rewrite resolve_customer_run. cbv zeta.
  rewrite searchCustomer_run.
  destruct (search_phone version phone) as [exact|e]; cbn [fst snd].
  2:{ left. apply calls_since_refl. }
  right. exists (search_call exact token). split; [reflexivity|].
  destruct (awaited w st (search_call exact token) (search_outcome version))
    as [id|e]; [|left; apply calls_since_sent].
  destruct (truthy id) eqn:T; cbn [snd]; [left; apply calls_since_sent|].
  rewrite createCustomer_run.
  destruct (split_full_name name) as [parts|e]; cbn [fst snd].
  2:{ left. apply calls_since_sent. }
  right. eexists. split; [|split; [|exists id; now split]].
  2:{ destruct (awaited _ _ _ _) as [id'|e]; [destruct (truthy id')|];
        cbn [snd]; apply calls_since_sent2. }
  reflexivity.
Qed.

(** After a search that returned no identifier, the creation for a string
    name is sent. *)
Lemma resolve_customer_creates (name : string) (phone token id : JSValue)
    (w : World) (st : State) :
  fst (searchCustomer version phone token w st) = Returned id ->
  truthy id = false ->
  exists s c,
    endpoint s = CustomersSearch /\ endpoint c = Customers
    /\ calls_since st
         (snd (resolve_customer version (JStr name) phone token w st)) = [s; c].
Proof.
  rewrite resolve_customer_run. cbv zeta.
  rewrite searchCustomer_run.
  destruct (search_phone version phone) as [exact|e]; cbn [fst snd];
    [|discriminate].
  intros -> ->. rewrite createCustomer_run. cbn [split_full_name]. cbv zeta.
  cbn [fst snd].
  eexists _, _. split; [|split].
  3:{ destruct (awaited _ _ _ _) as [id'|e]; [destruct (truthy id')|];
        cbn [snd]; apply calls_since_sent2. }
  all: reflexivity.
Qed.

End Resolution.

(** C4.  Customer resolution is find-or-create.  For every request that
    passes validation, [resolve_customer] first runs [searchCustomer]; a
    search that raises ends the resolution with its error; a search that
    returns an identifier ends it with that identifier and nothing more is
    done; only a search that returns no identifier is followed by
    [createCustomer]; and when that returns no identifier either, the
    resolution raises "Failed to secure customer ID for booking.", the handler
    answers with the failure envelope and no booking call is made.  The calls
    sent by the resolution are none, the search alone, or the search followed
    by the creation: never more than two; the creation is sent only after a
    search that returned no identifier, and is sent after every such search
    when the name is a string. *)
Theorem customer_resolution_is_find_or_create {engine : Engine}
    (version : Version) (config : Config) (req : Request)
    (w : World) (st : State) :
  handled version req ->
  rejects config req = false ->
  let token := env_value (TOKEN config) in
  let search := searchCustomer version (customer_phone req) token w st in
  let create := createCustomer version (customer_name req) (customer_phone req)
                  token w (snd search) in
  let resolved := resolve_customer version (customer_name req)
                    (customer_phone req) token w st in
  let sent_calls := calls_since st (snd resolved) in
  match fst search with
  | Thrown e => resolved = (Thrown e, snd search)
  | Returned id =>
      if truthy id then resolved = (Returned id, snd search)
      else
        match fst create with
        | Thrown e => resolved = (Thrown e, snd create)
        | Returned id' =>
            if truthy id' then resolved = (Returned id', snd create)
            else
              resolved = (Thrown (mkError secure_customer_failure), snd create)
              /\ handler version config req w st
                 = (Returned (mkHttp 200 (SendJson
                      (envelope (toolCallId req)
                         (failure_text version (mkError secure_customer_failure))))),
                    snd create)
              /\ count_calls Bookings (calls_since st (snd create)) = 0
        end
  end
  /\ (sent_calls = []
      \/ exists s, endpoint s = CustomersSearch
           /\ (sent_calls = [s]
               \/ exists c, endpoint c = Customers /\ sent_calls = [s; c]
                    /\ exists id, fst search = Returned id /\ truthy id = false))
  /\ (forall id name,
        fst search = Returned id -> truthy id = false ->
        customer_name req = JStr name ->
        exists s c, endpoint s = CustomersSearch /\ endpoint c = Customers
                    /\ sent_calls = [s; c]).
Proof.
  intros H R token search create resolved sent_calls.
  split; [|split; [apply resolve_customer_calls|]].
  2:{ intros id name S T N. unfold sent_calls, resolved. rewrite N.
      now apply (resolve_customer_creates version name _ _ id). }
  assert (E := resolve_customer_run version (customer_name req)
                 (customer_phone req) token w st).
  assert (K := resolve_customer_calls version (customer_name req)
                 (customer_phone req) token w st).
  cbv zeta in E, K. fold search in E, K. fold create in E. fold resolved in E, K.
  destruct (fst search) as [id|e]; [|exact E].
  destruct (truthy id); [exact E|].
  destruct (fst create) as [id'|e]; [|exact E].
  destruct (truthy id'); [exact E|].
  split; [exact E|]. split.
  - apply (handler_caught version config req w st _ _ H R).
    unfold try_block, bind. fold token. fold resolved. rewrite E. reflexivity.
  - rewrite E in K. cbn [snd] in K.
    destruct K as [-> | (s & Es & [-> | (c & Ec & -> & _)])]; unfold count_calls;
      simpl; try rewrite Es; try rewrite Ec; reflexivity.
Qed.

Section Booking.
Context {engine : Engine}.
Variable version : Version.
Variable config : Config.

(** The status-code message names the status. *)
Lemma booking_http_error_names_status (st : Z) :
  includes (Z_to_string st) (booking_http_error version st) = true.
Proof. unfold booking_http_error. destruct version; apply includes_append. Qed.

(** The error of a provider body that carries [errors]. *)
Lemma provider_error_detail {A} (data errors first detail : JSValue)
    (fallback : string) :
  get data "errors" = Returned errors -> truthy errors = true ->
  get_index errors 0 = Returned first -> get first "detail" = Returned detail ->
  @provider_error engine A data fallback = Thrown (mkError (Error_message detail)).
Proof.
  unfold provider_error, error_detail_or. now intros -> -> -> ->.
Qed.

(** The error of a provider body without [errors]. *)
Lemma provider_error_fallback {A} (data errors : JSValue) (fallback : string) :
  get data "errors" = Returned errors -> truthy errors = false ->
  @provider_error engine A data fallback = Thrown (mkError fallback).
Proof. unfold provider_error, error_detail_or. now intros -> ->. Qed.

(** [provider_error] never completes normally. *)
Lemma provider_error_throws {A} (data : JSValue) (fallback : string) :
  exists e, @provider_error engine A data fallback = Thrown e.
Proof.
  unfold provider_error. destruct (error_detail_or data fallback); eauto.
Qed.

(** A booking identifier is returned only for a success status and a body
    with a booking object. *)
Lemma booking_outcome_returned (r : Response) (data id : JSValue) :
  booking_outcome version r data = Returned id ->
  ok r = true
  /\ exists booking, get data "booking" = Returned booking
       /\ truthy booking = true /\ get booking "id" = Returned id.
Proof.
  unfold booking_outcome. destruct (ok r); simpl.
  - destruct (get data "booking") as [booking|e]; [|discriminate].
    destruct (truthy booking) eqn:T; simpl.
    + intros E. split; [reflexivity|]. now exists booking.
    + destruct (provider_error_throws (A:=JSValue) data no_booking_object)
        as [e ->]. discriminate.
  - destruct (provider_error_throws (A:=JSValue) data
                (booking_http_error version (status r))) as [e ->]. discriminate.
Qed.

End Booking.

(** C5, amended.  [createSquareBooking] tells two failures apart, by the
    status and by the body it has parsed.  For a body that is a JSON object:
    with a non-success status, and with a success status when the body holds
    no booking object, the call fails; the message is the fallback (the
    message that names the HTTP status in the first case, the fixed message
    about the unavailable time slot in the second) exactly when the body has
    no truthy [errors], and is else read from the first entry of [errors]:
    its [detail], the empty message when that entry has none, and the engine's
    TypeError when [errors] is an empty array.  A rejected [fetch] and a body
    that is no JSON fail with the reason and with the parse error, whatever
    the status.  An identifier is returned only for a success status with a
    truthy booking object in the body, and is then that object's [id]. *)
Theorem booking_outcomes_by_status_and_body {engine : Engine}
    (version : Version) (config : Config)
    (customerId startTime token : JSValue) (w : World) (st : State) :
  let c := booking_call config (next_key BookingKey w st) customerId startTime
             token in
  let result :=
    fst (createSquareBooking version config customerId startTime token w st) in
  (forall reason,
     upstream w (calls st) c = Rejected reason ->
     result = Thrown (mkError reason))
  /\ (forall r syntax_error,
        upstream w (calls st) c = Resolved r -> body r = NotJson syntax_error ->
        result = Thrown (mkError syntax_error))
  /\ (forall r fields,
        upstream w (calls st) c = Resolved r -> body r = Json (JObj fields) ->
        let errors := lookup "errors" fields in
        let booking := lookup "booking" fields in
        let fallback :=
          if ok r then no_booking_object
          else booking_http_error version (status r) in
        (ok r = true -> truthy booking = true -> result = get booking "id")
        /\ (ok r = false \/ truthy booking = false ->
            (truthy errors = false -> result = Thrown (mkError fallback))
            /\ (forall entry rest,
                  errors = JArr (JObj entry :: rest) ->
                  result
                  = Thrown (mkError (Error_message (lookup "detail" entry))))
            /\ (forall entry rest detail,
                  errors = JArr (JObj entry :: rest) ->
                  lookup "detail" entry = JStr detail ->
                  result = Thrown (mkError detail))
            /\ (forall entry rest,
                  errors = JArr (JObj entry :: rest) ->
                  lookup "detail" entry = JUndefined ->
                  result = Thrown (mkError ""))
            /\ (errors = JArr [] ->
                result
                = Thrown (mkError (TypeError_nullish JUndefined "detail")))))
  /\ (forall code,
        includes (Z_to_string code) (booking_http_error version code) = true)
  /\ (forall id,
        result = Returned id ->
        exists r data booking,
          upstream w (calls st) c = Resolved r
          /\ ok r = true /\ body r = Json data
          /\ get data "booking" = Returned booking
          /\ truthy booking = true /\ get booking "id" = Returned id).
Proof.
  intros c result.
  assert (E : result = awaited w st c (booking_outcome version)).
  { unfold result. now rewrite createSquareBooking_run. }
  rewrite E. clear E result. unfold awaited.
  split; [now intros reason ->|]. split; [now intros r m -> ->|].
  split; [|split; [apply booking_http_error_names_status|]].
  - intros r fields -> ->.
    set (errors := lookup "errors" fields).
    set (booking := lookup "booking" fields).
    set (fallback := if ok r then no_booking_object
                     else booking_http_error version (status r)).
    unfold booking_outcome. cbn [get property].
    fold errors booking. split.
    + intros -> ->. reflexivity.
    + intros K.
      assert (F : (if negb (ok r)
                   then provider_error (JObj fields)
                          (booking_http_error version (status r))
                   else if negb (truthy booking)
                        then provider_error (JObj fields) no_booking_object
                        else @get engine booking "id")
                  = provider_error (JObj fields) fallback).
      { unfold fallback. destruct (ok r); simpl; [|reflexivity].
        destruct K as [K|K]; [discriminate K | now rewrite K]. }
      rewrite F. clear F. unfold provider_error, error_detail_or.
      cbn [get property]. fold errors.
      split; [now intros ->|]. split; [now intros entry rest ->|].
      split; [intros entry rest detail -> D; simpl; now rewrite D|].
      split; [intros entry rest -> D; simpl; now rewrite D|].
      now intros ->.
  - intros id.
    destruct (upstream w (calls st) c) as [reason|r]; [discriminate|].
    destruct (body r) as [m|data] eqn:B; [discriminate|].
    intros O. apply booking_outcome_returned in O as (K & booking & G & T & I).
    exists r, data, booking. repeat split; assumption.
Qed.

Section Success.
Context {engine : Engine}.
Variable version : Version.
Variable config : Config.

(** The success text names the booking identifier. *)
Lemma success_text_names_booking (bookingId : JSValue) (req : Request) :
  includes (ToString bookingId) (success_text version bookingId req) = true.
Proof. unfold success_text. destruct version; apply includes_append. Qed.

(** A body without customers, or with an empty list of them, yields no
    identifier. *)
Lemma first_customer_id_no_match (data : JSValue) :
  get data "customers" = Returned JUndefined
  \/ get data "customers" = Returned (JArr []) ->
  first_customer_id data = Returned JNull.
Proof. unfold first_customer_id. intros [-> | ->]; reflexivity. Qed.

Lemma search_phone_string (phone : string) :
  exists exact, search_phone version (JStr phone) = Returned exact.
Proof. unfold search_phone. destruct version; eauto. Qed.

End Success.

(** C6.  The scenario of a new customer.  For a request that passes
    validation, with string name and phone, when the provider answers the
    search with no match, the creation with a customer of identifier CUST1
    and the booking call with a booking of identifier BOOK1, all with a
    success status, the handler answers with status 200 and the object
    [{ results: [{ toolCallId, result }] }] whose single entry carries the
    inbound [toolCallId] and a text that contains BOOK1 (in [RootRoute] and
    [Serverless] the text 'Booking success. ID: BOOK1.'); it has sent the
    search, the creation and the booking call, in this order. *)
Theorem new_customer_booking_succeeds {engine : Engine}
    (version : Version) (config : Config) (req : Request)
    (w : World) (st : State) (name phone : string)
    (found created booked : Response)
    (search_data create_data customer booking_data booking : JSValue) :
  handled version req ->
  functionName req = JStr "schedule_square_appointment" ->
  customer_name req = JStr name -> name <> "" ->
  customer_phone req = JStr phone ->
  truthy (service_name req) = true ->
  truthy (env_value (TOKEN config)) = true ->
  (forall log c, endpoint c = CustomersSearch -> upstream w log c = Resolved found) ->
  (forall log c, endpoint c = Customers -> upstream w log c = Resolved created) ->
  (forall log c, endpoint c = Bookings -> upstream w log c = Resolved booked) ->
  ok found = true -> body found = Json search_data ->
  (get search_data "customers" = Returned JUndefined
   \/ get search_data "customers" = Returned (JArr [])) ->
  ok created = true -> body created = Json create_data ->
  get create_data "customer" = Returned customer -> truthy customer = true ->
  get customer "id" = Returned (JStr "CUST1") ->
  ok booked = true -> body booked = Json booking_data ->
  get booking_data "booking" = Returned booking -> truthy booking = true ->
  get booking "id" = Returned (JStr "BOOK1") ->
  exists text st',
    handler version config req w st
    = (Returned (mkHttp 200 (SendJson
         (JObj [("results",
                 JArr [JObj [("toolCallId", toolCallId req);
                             ("result", JStr text)]])]))), st')
    /\ result_entries (mkHttp 200 (SendJson
         (JObj [("results",
                 JArr [JObj [("toolCallId", toolCallId req);
                             ("result", JStr text)]])])))
       = Some [JObj [("toolCallId", toolCallId req); ("result", JStr text)]]
    /\ includes "BOOK1" text = true
    /\ (version <> ApiIndexRoute -> text = "Booking success. ID: BOOK1.")
    /\ map endpoint (calls_since st st') = [CustomersSearch; Customers; Bookings].
Proof.
  intros H F N Nne P S T Us Uc Ub Fok Fb Fd Cok Cb Cc Ct Ci Bok Bb Bg Bt Bi.
  assert (R : rejects config req = false).
  { unfold rejects. rewrite F, N, S, T. simpl.
    apply String.eqb_neq in Nne. now rewrite Nne. }
  destruct (search_phone_string version phone) as [exact Ex].
  set (token := env_value (TOKEN config)).
  set (s := search_call exact token).
  set (st1 := sent s st).
  set (c := customer_call (next_key CustomerKey w st1) (split_on_space name)
              (JStr phone) token).
  set (st2 := sent c (drawn st1)).
  set (b := booking_call config (next_key BookingKey w st2) (JStr "CUST1")
              (start_time req) token).
  set (st3 := sent b (drawn st2)).
  assert (Search : searchCustomer version (JStr phone) token w st
                   = (Returned JNull, st1)).
  { rewrite searchCustomer_run, Ex. unfold awaited. fold s.
    rewrite (Us _ s eq_refl), Fb. unfold search_outcome.
    rewrite Fok, andb_false_r. now rewrite first_customer_id_no_match. }
  assert (Create : createCustomer version (JStr name) (JStr phone) token w st1
                   = (Returned (JStr "CUST1"), st2)).
  { rewrite createCustomer_run. cbn [split_full_name]. cbv zeta. fold c.
    unfold awaited. rewrite (Uc _ c eq_refl), Cb. unfold create_outcome.
    rewrite Cok, andb_false_r. unfold created_customer_id.
    now rewrite Cc, Ct, Ci. }
  assert (Book : createSquareBooking version config (JStr "CUST1")
                   (start_time req) token w st2 = (Returned (JStr "BOOK1"), st3)).
  { rewrite createSquareBooking_run. cbv zeta. fold b.
    unfold awaited. rewrite (Ub _ b eq_refl), Bb. unfold booking_outcome.
    rewrite Bok. simpl. now rewrite Bg, Bt, Bi. }
  exists (success_text version (JStr "BOOK1") req), st3.
  split; [|split; [reflexivity|split; [|split]]].
  - apply (handler_succeeded version config req w st _ _ H R).
    unfold try_block, bind. fold token. rewrite N, P.
    rewrite resolve_customer_run. cbv zeta.
    rewrite Search. cbn [fst snd truthy]. rewrite Create. cbn [fst snd truthy].
    simpl (negb _). cbv iota. rewrite Book. reflexivity.
  - apply (success_text_names_booking version (JStr "BOOK1") req).
  - intros V. destruct version; [reflexivity | now elim V | reflexivity].
  - rewrite (calls_since_app st st3 [s; c; b]); [reflexivity|].
    subst st3 st2 st1. simpl. now rewrite <- !app_assoc.
Qed.

(* ------------------------------------------------------------------ *)
(** * Splitting a name *)

Lemma split_on_space_cons (s : string) :
  exists first rest, split_on_space s = first :: rest.
Proof.
  destruct s as [|c s]; simpl; [eauto|].
  destruct (Ascii.eqb c " "); [eauto|].
  destruct (split_on_space s); eauto.
Qed.

Lemma join_cons (t : string) (u : string) (l : list string) :
  join_with_space (t :: u :: l) = t ++ " " ++ join_with_space (u :: l).
Proof. reflexivity. Qed.

Lemma join_cons_char (c : ascii) (t : string) (l : list string) :
  join_with_space (String c t :: l) = String c (join_with_space (t :: l)).
Proof. destruct l; reflexivity. Qed.

(** Joining the parts of a split gives the string back. *)
Lemma join_split (s : string) : join_with_space (split_on_space s) = s.
Proof.
  induction s as [|c s IH]; simpl; [reflexivity|].
  destruct (Ascii.eqb_spec c " ") as [->|N].
  - destruct (split_on_space_cons s) as (f & r & E). rewrite E in *.
    rewrite join_cons, IH. reflexivity.
  - destruct (split_on_space_cons s) as (f & r & E). rewrite E in *.
    rewrite join_cons_char, IH. reflexivity.
Qed.

(** No part of a split contains a space. *)
Lemma split_parts_no_space (s : string) :
  Forall (fun t => no_space t = true) (split_on_space s).
Proof.
  induction s as [|c s IH]; simpl.
  - now repeat constructor.
  - destruct (Ascii.eqb c " ") eqn:E.
    + now constructor.
    + destruct (split_on_space s) as [|p ps].
      * repeat constructor. unfold no_space. simpl. now rewrite E.
      * inversion IH as [|? ? Hp Hps]; subst. constructor; [|assumption].
        unfold no_space in *. simpl. now rewrite E, Hp.
Qed.

Lemma split_no_space (t : string) :
  no_space t = true -> split_on_space t = [t].
Proof.
  unfold no_space. induction t as [|c t IH]; simpl; intros H; [reflexivity|].
  apply andb_true_iff in H as [C H]. apply negb_true_iff in C.
  rewrite C, (IH H). reflexivity.
Qed.

Lemma split_token_space (t s : string) :
  no_space t = true ->
  split_on_space (t ++ " " ++ s) = t :: split_on_space s.
Proof.
  unfold no_space. induction t as [|c t IH]; simpl in *; intros H;
    [reflexivity|].
  apply andb_true_iff in H as [C H]. apply negb_true_iff in C.
  rewrite C, (IH H). reflexivity.
Qed.

(** Splitting the join of space-free tokens gives the tokens back. *)
Lemma split_join (first : string) (rest : list string) :
  Forall (fun t => no_space t = true) (first :: rest) ->
  split_on_space (join_with_space (first :: rest)) = first :: rest.
Proof.
  revert first. induction rest as [|u rest IH]; intros first H.
  - inversion H; subst. now apply split_no_space.
  - inversion H as [|? ? Hf Hr]; subst.
    rewrite join_cons, split_token_space, IH; auto.
Qed.

(** C8, amended.  [createCustomer] splits the name at every space character
    and at nothing else.  The parts are the one way of writing the name as
    space-free tokens (possibly empty) separated by single spaces; the first
    part is the given name; the family name is the remaining parts joined by
    single spaces, and 'Client' when there is one part only, that is when the
    name holds no space; and these are the names sent in the create-customer
    call. *)
Theorem name_is_split_at_spaces {engine : Engine} (version : Version)
    (name : string) (phone token : JSValue) (w : World) (st : State) :
  exists first rest,
    split_on_space name = first :: rest
    /\ Forall (fun t => no_space t = true) (first :: rest)
    /\ name = join_with_space (first :: rest)
    /\ (forall first' rest',
          Forall (fun t => no_space t = true) (first' :: rest') ->
          name = join_with_space (first' :: rest') ->
          first' = first /\ rest' = rest)
    /\ given_name (split_on_space name) = JStr first
    /\ family_name (split_on_space name)
       = match rest with
         | [] => "Client"
         | _ :: _ => join_with_space rest
         end
    /\ calls_since st (snd (createCustomer version (JStr name) phone token w st))
       = [mkCall Customers (bearer token)
            (JObj [("idempotency_key", JStr (next_key CustomerKey w st));
                   ("given_name", JStr first);
                   ("family_name",
                    JStr match rest with
                         | [] => "Client"
                         | _ :: _ => join_with_space rest
                         end);
                   ("phone_number", phone)])].
Proof.
  destruct (split_on_space_cons name) as (first & rest & E).
  exists first, rest.
  assert (F : Forall (fun t => no_space t = true) (first :: rest)).
  { rewrite <- E. apply split_parts_no_space. }
  assert (J : name = join_with_space (first :: rest)).
  { rewrite <- E. symmetry. apply join_split. }
  assert (Fam : family_name (first :: rest)
                = match rest with [] => "Client" | _ :: _ => join_with_space rest end).
  { unfold family_name. destruct rest; reflexivity. }
  split; [exact E|]. split; [exact F|]. split; [exact J|]. split; [|split; [|split]].
  - intros first' rest' F' J'.
    assert (S' := split_join first' rest' F'). rewrite <- J', E in S'.
    now injection S'.
  - now rewrite E.
  - now rewrite E.
  - rewrite createCustomer_run. cbn [split_full_name]. cbv zeta. cbn [snd].
    rewrite E. unfold customer_call. rewrite Fam. cbn [given_name].
    apply (calls_since_app st). reflexivity.
Qed.

(** C8 as stated fails: a tab is whitespace, so the words of the
    specification make Jane the given name and Doe the family name, while
    [createCustomer] keeps the whole string as the given name and falls back
    to Client. *)
Lemma tab_does_not_split :
  spec_given_name jane_tab_doe = "Jane"
  /\ spec_family_name jane_tab_doe = "Doe"
  /\ given_name (split_on_space jane_tab_doe) = JStr jane_tab_doe
  /\ family_name (split_on_space jane_tab_doe) = "Client"
  /\ given_name (split_on_space jane_tab_doe) <> JStr (spec_given_name jane_tab_doe)
  /\ family_name (split_on_space jane_tab_doe) <> spec_family_name jane_tab_doe.
Proof. repeat split; try reflexivity; vm_compute; discriminate. Qed.

(* ------------------------------------------------------------------ *)
(** * Idempotency keys *)

(** C9, amended.  Two generated keys are equal exactly when they are of the
    same kind and were made from the same clock reading and the same random
    suffix; in particular two generations that follow one another give equal
    keys exactly when the kind is the same and both the clock and the random
    source repeat. *)
Theorem keys_equal_iff_same_inputs (k1 k2 : KeyKind) (w : World) (st : State) :
  (forall (t1 t2 : Z) (s1 s2 : string),
     make_key k1 t1 s1 = make_key k2 t2 s2 <-> k1 = k2 /\ t1 = t2 /\ s1 = s2)
  /\ exists a b,
       two_keys k1 k2 w st
       = (Returned (a, b), mkState (calls st) (S (S (keys_drawn st))))
       /\ (a = b <->
           k1 = k2
           /\ Date_now w (keys_drawn st) = Date_now w (S (keys_drawn st))
           /\ Math_random_suffix w (keys_drawn st)
              = Math_random_suffix w (S (keys_drawn st))).
Proof.
  assert (I : forall t1 t2 s1 s2,
            make_key k1 t1 s1 = make_key k2 t2 s2
            <-> k1 = k2 /\ t1 = t2 /\ s1 = s2).
  { intros. split; [apply make_key_inj | now intros (-> & -> & ->)]. }
  split; [exact I|].
  eexists _, _. split; [reflexivity|]. apply I.
Qed.

(** C9 as stated fails: when the clock has not advanced and the random
    source gives the same six characters, two generations that follow one
    another give the same key, and the handler sends the same key with the
    create-customer calls of two requests. *)
Lemma frozen_clock_repeats_key :
  fst (two_keys CustomerKey CustomerKey jane_frozen_world initial)
  = Returned ("vapi-customer-1735725600000-k3x9qa",
              "vapi-customer-1735725600000-k3x9qa")
  /\ logged_keys (calls (snd
       ((_ <- @handler v8 RootRoute sample_config jane_request ;;
         @handler v8 RootRoute sample_config jane_request)
          jane_frozen_world initial)))
     = [JStr "vapi-customer-1735725600000-k3x9qa";
        JStr "vapi-booking-1735725600000-k3x9qa";
        JStr "vapi-customer-1735725600000-k3x9qa";
        JStr "vapi-booking-1735725600000-k3x9qa"].
Proof. split; vm_compute; reflexivity. Qed.

(* ------------------------------------------------------------------ *)
(** * Validation *)

(** The token of [Serverless] is set whenever its literal is not empty. *)
Lemma serverless_token_is_set (token_literal : string)
    (process_env : string -> option string) :
  token_literal <> "" ->
  truthy (env_value (TOKEN (config_serverless token_literal process_env))) = true.
Proof. simpl. intros N. apply String.eqb_neq in N. now rewrite N. Qed.

(** C3.  A handled request whose [functionName] is not
    'schedule_square_appointment', or whose [customer_name] or [service_name]
    is empty or absent, or that arrives while the token is unset, is answered
    with status 200 and the envelope that carries the fixed configuration-error
    message; the state is left as it was, so no call has been sent (no search,
    no creation, no booking) and no key generated. *)
Theorem validation_rejects_locally {engine : Engine}
    (version : Version) (config : Config) (req : Request)
    (w : World) (st : State) :
  handled version req ->
  strict_equal_string (functionName req) "schedule_square_appointment" = false
  \/ truthy (customer_name req) = false
  \/ truthy (service_name req) = false
  \/ truthy (env_value (TOKEN config)) = false ->
  handler version config req w st
  = (Returned (mkHttp 200 (SendJson
       (envelope (or_else (toolCallId req) (JStr "test-error"))
                 configuration_error))), st)
  /\ calls_since st (snd (handler version config req w st)) = [].
Proof.
  intros H D.
  assert (R : rejects config req = true).
  { unfold rejects.
    destruct D as [D|[D|[D|D]]]; rewrite D; simpl;
      repeat rewrite orb_true_r; reflexivity. }
  rewrite (handler_rejected version config req w st H R).
  split; [reflexivity | apply calls_since_refl].
Qed.

(** C10.  The validation reads [functionName], [customer_name],
    [service_name] and the token, and nothing else: two requests that agree on
    the three fields are rejected alike, and a request without
    [customer_phone] whose validated fields are present is not rejected.  In
    [Serverless], which cleans the phone number, such a request (a POST) ends
    with status 200 and the failure envelope: reading [replace] of the absent
    phone raises before any call is sent, and the error is caught. *)
Theorem absent_phone_fails_inside_the_envelope {engine : Engine}
    (config : Config) (req : Request) (w : World) (st : State) :
  strict_equal_string (functionName req) "schedule_square_appointment" = true ->
  truthy (customer_name req) = true ->
  truthy (service_name req) = true ->
  truthy (env_value (TOKEN config)) = true ->
  customer_phone req = JUndefined ->
  method req = "POST" ->
  rejects config req = false
  /\ (forall req',
        functionName req' = functionName req ->
        customer_name req' = customer_name req ->
        service_name req' = service_name req ->
        rejects config req' = rejects config req)
  /\ handler Serverless config req w st
     = (Returned (mkHttp 200 (SendJson
          (envelope (toolCallId req)
             ("Booking failed. Failure Detail: "
                ++ failure_detail
                     (mkError (TypeError_nullish JUndefined "replace")))))), st).
Proof.
  intros F N S T P Mth.
  assert (R : rejects config req = false).
  { unfold rejects. now rewrite F, N, S, T. }
  split; [exact R|]. split.
  - intros req' E1 E2 E3. unfold rejects. now rewrite E1, E2, E3.
  - apply (handler_caught Serverless config req w st); [now intros _ | exact R |].
    unfold try_block, bind. rewrite resolve_customer_run. cbv zeta.
    rewrite searchCustomer_run, P. reflexivity.
Qed.

(* ------------------------------------------------------------------ *)
(** * Failures *)

Lemma no_line_break_append (a b : string) :
  no_line_break (a ++ b) = no_line_break a && no_line_break b.
Proof.
  unfold no_line_break. induction a as [|c a IH]; simpl; [reflexivity|].
  now rewrite IH, andb_assoc.
Qed.

(** The detail of a failure holds no line break. *)
Lemma failure_detail_clean (e : JSError) : no_line_break (failure_detail e) = true.
Proof.
  unfold failure_detail. destruct (truthy (JStr (message e))).
  - apply collapse_breaks_clean.
  - reflexivity.
Qed.

(** In [RootRoute] and [Serverless] the failure text holds no line break. *)
Lemma failure_text_clean (version : Version) (e : JSError) :
  version <> ApiIndexRoute -> no_line_break (failure_text version e) = true.
Proof.
  intros N. unfold failure_text.
  destruct version; [|now elim N|]; rewrite no_line_break_append,
    failure_detail_clean; reflexivity.
Qed.

(** A message without line breaks is reported as it is. *)
Lemma failure_detail_plain (e : JSError) :
  message e <> "" -> no_line_break (message e) = true ->
  failure_detail e = message e.
Proof.
  intros N B. unfold failure_detail. simpl.
  apply String.eqb_neq in N. rewrite N. simpl.
  now apply collapse_breaks_none.
Qed.

Section Status.
Context {engine : Engine}.
Variable version : Version.

(** Where the status is tested, a non-success status makes the search and
    the creation raise the provider's error. *)
Lemma search_status_checked (r : Response) (data : JSValue) :
  checks_customer_status version = true -> ok r = false ->
  exists e, search_outcome version r data = Thrown e.
Proof.
  intros C K. unfold search_outcome. rewrite C, K. apply provider_error_throws.
Qed.

Lemma create_status_checked (r : Response) (data : JSValue) :
  checks_customer_status version = true -> ok r = false ->
  exists e, create_outcome version r data = Thrown e.
Proof.
  intros C K. unfold create_outcome. rewrite C, K. apply provider_error_throws.
Qed.

(** Every version tests the status of the booking call. *)
Lemma booking_status_checked (r : Response) (data : JSValue) :
  ok r = false -> exists e, booking_outcome version r data = Thrown e.
Proof.
  intros K. unfold booking_outcome. rewrite K. apply provider_error_throws.
Qed.

End Status.

(** C2 at the failing input.  [ApiIndexRoute], asked for the booking of the
    scenario while the provider refuses the booking with a detail of two
    lines, answers with status 200 and a failure text that still holds the
    line break; [RootRoute] and [Serverless] answer the same request with the
    two lines joined by one space. *)
Theorem api_index_route_keeps_line_breaks (engine : Engine) :
  fst (handler ApiIndexRoute sample_config jane_request conflict_world initial)
  = Returned (mkHttp 200 (SendJson (envelope (JStr "abc")
      ("I encountered a system error and could not finalize the booking. Failure Detail: "
         ++ two_line_detail))))
  /\ no_line_break
       ("I encountered a system error and could not finalize the booking. Failure Detail: "
          ++ two_line_detail) = false
  /\ fst (handler RootRoute sample_config jane_request conflict_world initial)
     = Returned (mkHttp 200 (SendJson (envelope (JStr "abc")
         "Booking failed. Failure Detail: Slot taken Try later")))
  /\ fst (handler Serverless sample_config jane_request conflict_world initial)
     = Returned (mkHttp 200 (SendJson (envelope (JStr "abc")
         "Booking failed. Failure Detail: Slot taken Try later"))).
Proof. repeat split; vm_compute; reflexivity. Qed.

(** C7 at the failing input.  [ApiIndexRoute], asked for the booking of the
    scenario while the provider answers the search with status 500 and an
    error detail, takes the answer for "no customer found": it goes on to
    create a customer and to book, and reports success.  [RootRoute] fails
    the same request with the provider's detail after the search alone. *)
Theorem api_index_route_ignores_search_status (engine : Engine) :
  let run := handler ApiIndexRoute sample_config jane_request
               failing_search_world initial in
  fst run
  = Returned (mkHttp 200 (SendJson (envelope (JStr "abc")
      "Great! I've confirmed your appointment. Your booking ID is BOOK1. The service is Haircut at 2025-01-01T10:00:00Z.")))
  /\ map endpoint (calls (snd run)) = [CustomersSearch; Customers; Bookings]
  /\ let run' := handler RootRoute sample_config jane_request
                   failing_search_world initial in
     fst run'
     = Returned (mkHttp 200 (SendJson (envelope (JStr "abc")
         "Booking failed. Failure Detail: Internal server error.")))
     /\ map endpoint (calls (snd run')) = [CustomersSearch].
Proof. repeat split; vm_compute; reflexivity. Qed.

(** C1 at the failing input.  The request of the scenario without a
    [toolCallId] passes validation; when the booking succeeds, and likewise
    when it fails, the single entry of the envelope carries [undefined] as its
    [toolCallId], not 'test-error'.  Only the rejection puts the sentinel in
    its place. *)
Theorem absent_id_is_defaulted_on_rejection_only (engine : Engine) :
  fst (handler RootRoute sample_config jane_request_without_id jane_world initial)
  = Returned (mkHttp 200 (SendJson
      (envelope JUndefined "Booking success. ID: BOOK1.")))
  /\ fst (handler RootRoute sample_config jane_request_without_id
            conflict_world initial)
     = Returned (mkHttp 200 (SendJson
         (envelope JUndefined "Booking failed. Failure Detail: Slot taken Try later")))
  /\ fst (handler Serverless sample_config jane_request_without_id jane_world
            initial)
     = Returned (mkHttp 200 (SendJson
         (envelope JUndefined "Booking success. ID: BOOK1.")))
  /\ fst (handler RootRoute sample_config
            (mkRequest "POST" (JObj [("args", jane_args)])) jane_world initial)
     = Returned (mkHttp 200 (SendJson
         (envelope (JStr "test-error") configuration_error))).
Proof. repeat split; vm_compute; reflexivity. Qed.

Section Caught.
Context {engine : Engine}.
Variable version : Version.
Variable config : Config.

(** In [RootRoute] and [Serverless], whatever the [try] block raises is
    answered with status 200 and a failure text without line breaks, built
    from the message of the error; the detail of an empty message is the
    placeholder. *)
Lemma caught_failures_are_sanitized (req : Request) (w : World)
    (st st' : State) (e : JSError) :
  version <> ApiIndexRoute ->
  handled version req -> rejects config req = false ->
  try_block version config req w st = (Thrown e, st') ->
  handler version config req w st
  = (Returned (mkHttp 200 (SendJson (envelope (toolCallId req)
       ("Booking failed. Failure Detail: " ++ failure_detail e)))), st')
  /\ no_line_break ("Booking failed. Failure Detail: " ++ failure_detail e) = true
  /\ (message e = "" -> failure_detail e = "Unknown API Error.")
  /\ (message e <> "" -> failure_detail e = replace_line_breaks (message e)).
Proof.
  intros N H R T. split; [|split; [|split]].
  - rewrite (handler_caught version config req w st st' e H R T).
    unfold failure_text. destruct version; [reflexivity | now elim N | reflexivity].
  - now rewrite no_line_break_append, failure_detail_clean.
  - unfold failure_detail. now intros ->.
  - unfold failure_detail. simpl. intros M. apply String.eqb_neq in M.
    now rewrite M.
Qed.

(** Where the status of the search is tested, a search answered with a
    non-success status and a JSON body ends the request: the handler answers
    with the failure envelope built from the provider's error, and the search
    is the only call sent. *)
Lemma failed_search_fails_request (req : Request) (w : World) (st : State)
    (exact : JSValue) (r : Response) (data : JSValue) :
  checks_customer_status version = true ->
  handled version req -> rejects config req = false ->
  search_phone version (customer_phone req) = Returned exact ->
  upstream w (calls st) (search_call exact (env_value (TOKEN config)))
  = Resolved r ->
  ok r = false -> body r = Json data ->
  exists e,
    provider_error (A:=JSValue) data
      ("Search Customer HTTP Error " ++ Z_to_string (status r) ++ " from Square.")
    = Thrown e
    /\ handler version config req w st
       = (Returned (mkHttp 200 (SendJson
            (envelope (toolCallId req) (failure_text version e)))),
          sent (search_call exact (env_value (TOKEN config))) st).
Proof.
  intros C H R P U K B.
  destruct (provider_error_throws (A:=JSValue) data
              ("Search Customer HTTP Error " ++ Z_to_string (status r)
                 ++ " from Square.")) as [e E].
  exists e. split; [exact E|].
  apply (handler_caught version config req w st _ _ H R).
  unfold try_block, bind. rewrite resolve_customer_run. cbv zeta.
  rewrite searchCustomer_run, P. cbn [fst snd]. unfold awaited.
  rewrite U, B. unfold search_outcome. rewrite C, K. cbn [andb negb].
  rewrite E. reflexivity.
Qed.

End Caught.

(* ------------------------------------------------------------------ *)
(** * The theorems at concrete requests *)

(** A request for another function is rejected by [Serverless] without any
    call. *)
Lemma validation_rejects_locally_at_cancel :
  @handler v8 Serverless sample_config cancel_request jane_world initial
  = (Returned (mkHttp 200 (SendJson
       (envelope (JStr "abc") configuration_error))), initial)
  /\ calls_since initial
       (snd (@handler v8 Serverless sample_config cancel_request jane_world
               initial)) = [].
Proof.
  apply (@validation_rejects_locally v8 Serverless sample_config cancel_request
           jane_world initial).
  - intros _. reflexivity.
  - left. reflexivity.
Defined.

(** When neither the search nor the creation yields an identifier, the
    request of the scenario fails and no booking is attempted. *)
Lemma customer_resolution_at_lost_customer :
  @handler v8 Serverless sample_config jane_request no_customer_world initial
  = (Returned (mkHttp 200 (SendJson (envelope (JStr "abc")
       "Booking failed. Failure Detail: Failed to secure customer ID for booking."))),
     snd (@createCustomer v8 Serverless (JStr "Jane Doe") (JStr "+15551234567")
            (JStr "sq0atp-token") no_customer_world
            (snd (@searchCustomer v8 Serverless (JStr "+15551234567")
                    (JStr "sq0atp-token") no_customer_world initial)))).
Proof.
  destruct (@customer_resolution_is_find_or_create v8 Serverless sample_config
              jane_request no_customer_world initial (fun _ => eq_refl) eq_refl)
    as [A _].
  exact (proj1 (proj2 A)).
Defined.

(** The booking of the scenario under five providers: refused with a
    detail, refused with a bare status, answered with a success status and no
    booking object, not answered at all, and confirmed. *)
Lemma booking_outcomes_at_five_providers :
  let book w :=
    fst (@createSquareBooking v8 RootRoute sample_config (JStr "CUST1")
           (JStr "2025-01-01T10:00:00Z") (JStr "sq0atp-token") w initial) in
  book conflict_world = Thrown (mkError two_line_detail)
  /\ book bare_status_world
     = Thrown (mkError "Booking HTTP Error 409 from Square.")
  /\ book no_booking_world = Thrown (mkError no_booking_object)
  /\ book offline_world = Thrown (mkError "fetch failed")
  /\ book jane_world = Returned (JStr "BOOK1").
Proof.
  cbv zeta.
  pose (at_world := fun w =>
    @booking_outcomes_by_status_and_body v8 RootRoute sample_config
      (JStr "CUST1") (JStr "2025-01-01T10:00:00Z") (JStr "sq0atp-token")
      w initial).
  split; [|split; [|split; [|split]]].
  - destruct (at_world conflict_world) as (_ & _ & J & _).
    destruct (J _ _ eq_refl eq_refl) as (_ & F).
    destruct (F (or_introl eq_refl)) as (_ & _ & D & _).
    exact (D _ _ two_line_detail eq_refl eq_refl).
  - destruct (at_world bare_status_world) as (_ & _ & J & _).
    destruct (J _ _ eq_refl eq_refl) as (_ & F).
    destruct (F (or_introl eq_refl)) as (D & _).
    exact (D eq_refl).
  - destruct (at_world no_booking_world) as (_ & _ & J & _).
    destruct (J _ _ eq_refl eq_refl) as (_ & F).
    destruct (F (or_intror eq_refl)) as (D & _).
    exact (D eq_refl).
  - destruct (at_world offline_world) as (D & _).
    exact (D _ eq_refl).
  - destruct (at_world jane_world) as (_ & _ & J & _).
    destruct (J _ _ eq_refl eq_refl) as (D & _).
    exact (D eq_refl eq_refl).
Defined.

(** C5 as stated fails.  A refusal with status 400 whose error has a code and
    no detail gives the empty message, which is no detail of the provider and
    does not name the status ([RootRoute] reports it as 'Unknown API Error.');
    an empty list of errors gives the engine's TypeError; and a status 502
    with a body that is no JSON gives the parse error: none of them names the
    status. *)
Lemma booking_failure_without_detail_or_status :
  let book w :=
    fst (@createSquareBooking v8 RootRoute sample_config (JStr "CUST1")
           (JStr "2025-01-01T10:00:00Z") (JStr "sq0atp-token") w initial) in
  book undetailed_world = Thrown (mkError "")
  /\ includes "400" "" = false
  /\ fst (@handler v8 RootRoute sample_config jane_request undetailed_world
            initial)
     = Returned (mkHttp 200 (SendJson (envelope (JStr "abc")
         "Booking failed. Failure Detail: Unknown API Error.")))
  /\ book empty_errors_world
     = Thrown (mkError "Cannot read properties of undefined (reading 'detail')")
  /\ includes "400" "Cannot read properties of undefined (reading 'detail')"
     = false
  /\ book bad_gateway_world
     = Thrown (mkError "Unexpected token < in JSON at position 0")
  /\ includes "502" "Unexpected token < in JSON at position 0" = false.
Proof. cbv zeta. repeat split; vm_compute; reflexivity. Qed.

(** The scenario of the specification. *)
Lemma new_customer_booking_at_jane :
  exists text st',
    @handler v8 Serverless sample_config jane_request jane_world initial
    = (Returned (mkHttp 200 (SendJson
         (JObj [("results",
                 JArr [JObj [("toolCallId", JStr "abc");
                             ("result", JStr text)]])]))), st')
    /\ result_entries (mkHttp 200 (SendJson
         (JObj [("results",
                 JArr [JObj [("toolCallId", JStr "abc");
                             ("result", JStr text)]])])))
       = Some [JObj [("toolCallId", JStr "abc"); ("result", JStr text)]]
    /\ includes "BOOK1" text = true
    /\ (Serverless <> ApiIndexRoute -> text = "Booking success. ID: BOOK1.")
    /\ map endpoint (calls_since initial st')
       = [CustomersSearch; Customers; Bookings].
Proof.
  apply (@new_customer_booking_succeeds v8 Serverless sample_config jane_request
           jane_world initial "Jane Doe" "+15551234567"
           (mkResponse 200 (Json (JObj [("customers", JArr [])])))
           (mkResponse 200 (Json (JObj [("customer", JObj [("id", JStr "CUST1")])])))
           (mkResponse 200 (Json (JObj [("booking", JObj [("id", JStr "BOOK1")])])))
           (JObj [("customers", JArr [])])
           (JObj [("customer", JObj [("id", JStr "CUST1")])])
           (JObj [("id", JStr "CUST1")])
           (JObj [("booking", JObj [("id", JStr "BOOK1")])])
           (JObj [("id", JStr "BOOK1")])).
  all: try reflexivity.
  - intros _. reflexivity.
  - discriminate.
  - intros log c E. unfold jane_world, sample_world, provider. simpl.
    rewrite E. reflexivity.
  - intros log c E. unfold jane_world, sample_world, provider. simpl.
    rewrite E. reflexivity.
  - intros log c E. unfold jane_world, sample_world, provider. simpl.
    rewrite E. reflexivity.
  - right. reflexivity.
Defined.

(** The request of the scenario without a phone number, sent to
    [Serverless]. *)
Lemma absent_phone_at_jane :
  rejects sample_config jane_request_without_phone = false
  /\ @handler v8 Serverless sample_config jane_request_without_phone jane_world
       initial
     = (Returned (mkHttp 200 (SendJson (envelope (JStr "abc")
          "Booking failed. Failure Detail: Cannot read properties of undefined (reading 'replace')"))),
        initial).
Proof.
  destruct (@absent_phone_fails_inside_the_envelope v8 sample_config
              jane_request_without_phone jane_world initial
              eq_refl eq_refl eq_refl eq_refl eq_refl eq_refl) as (A & _ & B).
  split; [exact A | exact B].
Defined.

(* ------------------------------------------------------------------ *)
(** * Further properties of the handlers *)

(* ------------------------------------------------------------------ *)
(** * The two replacements *)

Lemma replace_non_phone_chars_append (a b : string) :
  replace_non_phone_chars (a ++ b)
  = replace_non_phone_chars a ++ replace_non_phone_chars b.
Proof.
  induction a as [|c a IH]; simpl; [reflexivity|].
  destruct (is_digit_or_plus c); simpl; now rewrite IH.
Qed.

Lemma replace_non_phone_chars_length (s : string) :
  (String.length (replace_non_phone_chars s) <= String.length s)%nat.
Proof.
  induction s as [|c s IH]; simpl; [lia|].
  destruct (is_digit_or_plus c); simpl; lia.
Qed.

Lemma replace_non_phone_chars_clean (s : string) :
  is_clean_phone (replace_non_phone_chars s) = true.
Proof.
  unfold is_clean_phone. induction s as [|c s IH]; simpl; [reflexivity|].
  destruct (is_digit_or_plus c) eqn:E; simpl; [now rewrite E|exact IH].
Qed.

Lemma replace_non_phone_chars_fixed (s : string) :
  is_clean_phone s = true -> replace_non_phone_chars s = s.
Proof.
  unfold is_clean_phone. induction s as [|c s IH]; simpl; [reflexivity|].
  intros H. apply andb_true_iff in H as [-> H]. now rewrite IH.
Qed.

(** X1.  The cleaning of the phone number in [Serverless],
    [phone.replace(/[^0-9+]/g, '')], keeps the digits and the plus signs in
    their order and drops everything else: its result holds no other
    character; it changes nothing exactly when the phone holds no other
    character; cleaning twice is cleaning once; it works piece by piece; and
    the result is never longer than the phone. *)
Theorem phone_cleaning_keeps_digits_and_plus (s : string) :
  is_clean_phone (replace_non_phone_chars s) = true
  /\ (replace_non_phone_chars s = s <-> is_clean_phone s = true)
  /\ replace_non_phone_chars (replace_non_phone_chars s)
     = replace_non_phone_chars s
  /\ (forall a b,
        replace_non_phone_chars (a ++ b)
        = replace_non_phone_chars a ++ replace_non_phone_chars b)
  /\ (String.length (replace_non_phone_chars s) <= String.length s)%nat.
Proof.
  split; [apply replace_non_phone_chars_clean|]. split; [|split; [|split]].
  - split.
    + intros E. rewrite <- E. apply replace_non_phone_chars_clean.
    + apply replace_non_phone_chars_fixed.
  - apply replace_non_phone_chars_fixed, replace_non_phone_chars_clean.
  - apply replace_non_phone_chars_append.
  - apply replace_non_phone_chars_length.
Qed.

Lemma collapse_breaks_length (in_run : bool) (s : string) :
  (String.length (collapse_breaks in_run s) <= String.length s)%nat.
Proof.
  revert in_run. induction s as [|c s IH]; intros in_run; simpl; [lia|].
  destruct (is_line_break c).
  - destruct in_run; simpl; [specialize (IH true) | specialize (IH true)]; lia.
  - simpl. specialize (IH false). lia.
Qed.

(** X2.  The replacement of line breaks in the failure text,
    [message.replace(/[\r\n]+/g, ' ')]: its result holds no carriage return
    and no line feed; it changes nothing exactly when the message holds none;
    replacing twice is replacing once; the result is never longer than the
    message; and a run of line breaks of any length, between text without
    line breaks and text that does not begin with one, becomes one space. *)
Theorem line_breaks_become_single_spaces (s : string) :
  no_line_break (replace_line_breaks s) = true
  /\ (replace_line_breaks s = s <-> no_line_break s = true)
  /\ replace_line_breaks (replace_line_breaks s) = replace_line_breaks s
  /\ (String.length (replace_line_breaks s) <= String.length s)%nat
  /\ (forall a run b,
        no_line_break a = true ->
        run <> "" -> string_forallb is_line_break run = true ->
        (b = "" \/ exists c b', b = String c b' /\ is_line_break c = false) ->
        replace_line_breaks (a ++ run ++ b) = a ++ " " ++ replace_line_breaks b).
Proof.
  split; [apply collapse_breaks_clean|]. split; [|split; [|split]].
  - split.
    + intros E. rewrite <- E. apply collapse_breaks_clean.
    + apply collapse_breaks_none.
  - apply collapse_breaks_none, collapse_breaks_clean.
  - apply collapse_breaks_length.
  - intros a run b Ha Hne Hrun Hb.
    rewrite (collapse_breaks_run a run b Ha Hne Hrun).
    destruct Hb as [-> | (c & b' & -> & Hc)]; [reflexivity|].
    now rewrite collapse_breaks_resume.
Qed.

(* ------------------------------------------------------------------ *)
(** * The shape of a run *)

Section Runs.
Context {engine : Engine}.
Variable version : Version.
Variable config : Config.

(** The state in which the handler leaves the run. *)
Lemma handler_state (req : Request) (w : World) (st : State) :
  snd (handler version config req w st) = st
  \/ (handled version req /\ rejects config req = false
      /\ snd (handler version config req w st)
         = snd (try_block version config req w st)
      /\ (forall r, fst (try_block version config req w st) = Returned r ->
                    fst (handler version config req w st) = Returned r)).
Proof.
  unfold handler, handled.
  destruct (checks_method version) eqn:C; simpl.
  - destruct (String.eqb_spec (method req) "POST") as [E|N]; simpl; [|now left].
    destruct (rejects config req); [now left|]. right.
    split; [now intros _|]. split; [reflexivity|].
    unfold try_catch.
    destruct (try_block version config req w st) as [[r|e] st']; simpl;
      split; try reflexivity; intros r'; congruence.
  - destruct (rejects config req); [now left|]. right.
    split; [discriminate|]. split; [reflexivity|].
    unfold try_catch.
    destruct (try_block version config req w st) as [[r|e] st']; simpl;
      split; try reflexivity; intros r'; congruence.
Qed.

(** How far the [try] block gets: it stops before the search is sent, after
    the search, after the creation, or after the booking call, which it sends
    for a truthy customer identifier only; it completes only in the last
    case. *)
Lemma try_block_shape (req : Request) (w : World) (st st' : State)
    (o : Outcome HttpResponse) :
  try_block version config req w st = (o, st') ->
  let token := env_value (TOKEN config) in
  (st' = st /\ exists e, o = Thrown e)
  \/ exists exact,
       search_phone version (customer_phone req) = Returned exact
       /\ let s := search_call exact token in
          (st' = sent s st /\ exists e, o = Thrown e)
          \/ (exists id,
                truthy id = true
                /\ st' = sent (booking_call config
                                 (next_key BookingKey w (sent s st))
                                 id (start_time req) token) (drawn (sent s st)))
          \/ exists name,
               customer_name req = JStr name
               /\ let c := customer_call (next_key CustomerKey w (sent s st))
                             (split_on_space name) (customer_phone req) token in
                  (st' = sent c (drawn (sent s st)) /\ exists e, o = Thrown e)
                  \/ exists id,
                       truthy id = true
                       /\ st' = sent (booking_call config
                                        (next_key BookingKey w
                                           (sent c (drawn (sent s st))))
                                        id (start_time req) token)
                                     (drawn (sent c (drawn (sent s st)))).
Proof.
  unfold try_block, bind at 1.
  rewrite resolve_customer_run. cbv zeta. rewrite searchCustomer_run.
  destruct (search_phone version (customer_phone req)) as [exact|e];
    cbn [fst snd]; [|intros [= <- <-]; left; split; eauto].
  intros H. right. exists exact. split; [reflexivity|]. cbv zeta.
  revert H.
  match goal with
  | |- context [awaited ?a ?b ?c ?d] => destruct (awaited a b c d) as [id|e]
  end; [|intros [= <- <-]; left; split; eauto].
  destruct (truthy id) eqn:T; cbn [fst snd].
  - unfold bind. rewrite createSquareBooking_run. cbv zeta.
    intros H. right. left. exists id. split; [exact T|]. revert H.
    match goal with
    | |- context [awaited ?a ?b ?c ?d] => destruct (awaited a b c d)
    end; now intros [= <- <-].
  - rewrite createCustomer_run.
    destruct (customer_name req) as [| |b|n|name|l|l]; cbn [split_full_name];
      cbv zeta; cbn [fst snd];
      try (intros [= <- <-]; left; split; eauto; fail).
    intros H. right. right. exists name. split; [reflexivity|]. cbv zeta.
    revert H.
    match goal with
    | |- context [awaited ?a ?b ?c ?d] => destruct (awaited a b c d) as [id'|e]
    end; [|intros [= <- <-]; left; split; eauto].
    destruct (truthy id') eqn:T'; [|intros [= <- <-]; left; split; eauto].
    unfold bind. rewrite createSquareBooking_run. cbv zeta.
    intros H. right. exists id'. split; [exact T'|]. revert H.
    match goal with
    | |- context [awaited ?a ?b ?c ?d] => destruct (awaited a b c d)
    end; now intros [= <- <-].
Qed.

End Runs.

Section Discipline.
Context {engine : Engine}.
Variable version : Version.
Variable config : Config.

(** The calls of one request, written out: nothing; the search; the search
    and a booking call for a truthy identifier; the search and the creation;
    or all three, the booking call again for a truthy identifier. *)
Lemma handler_calls (req : Request) (w : World) (st : State) :
  let token := env_value (TOKEN config) in
  let st' := snd (handler version config req w st) in
  exists new,
    calls st' = (calls st ++ new)%list
    /\ keys_drawn st'
       = (keys_drawn st + count_calls Customers new + count_calls Bookings new)%nat
    /\ (new = []
        \/ exists exact,
             let s := search_call exact token in
             new = [s]
             \/ (exists id key,
                   truthy id = true
                   /\ new = [s; booking_call config key id (start_time req) token])
             \/ exists name key,
                  let c := customer_call key (split_on_space name)
                             (customer_phone req) token in
                  customer_name req = JStr name
                  /\ (new = [s; c]
                      \/ exists id key',
                           truthy id = true
                           /\ new = [s; c; booking_call config key' id
                                             (start_time req) token])).
Proof.
  cbv zeta.
  destruct (handler_state version config req w st) as [-> | (_ & _ & -> & _)].
  { exists []. rewrite app_nil_r. repeat split; [unfold count_calls; simpl; lia | now left]. }
  destruct (try_block version config req w st) as [o st'] eqn:T.
  apply try_block_shape in T. cbv zeta in T. cbn [snd].
  destruct T as [[-> _] | (exact & _ & [[-> _] | [(id & Tid & ->) |
    (name & N & [[-> _] | (id & Tid & ->)])]])].
  - exists []. rewrite app_nil_r. repeat split; [unfold count_calls; simpl; lia | now left].
  - eexists [_]. split; [reflexivity|]. split; [unfold count_calls; simpl; lia|].
    right. exists exact. now left.
  - eexists [_; _]. split; [simpl; now rewrite <- app_assoc|].
    split; [unfold count_calls; simpl; lia|]. right. exists exact. right. left.
    eexists _, _. split; [exact Tid | reflexivity].
  - eexists [_; _]. split; [simpl; now rewrite <- app_assoc|].
    split; [unfold count_calls; simpl; lia|]. right. exists exact. right. right.
    eexists _, _. split; [exact N|]. now left.
  - eexists [_; _; _]. split; [simpl; now rewrite <- !app_assoc|].
    split; [unfold count_calls; simpl; lia|]. right. exists exact. right. right.
    eexists _, _. split; [exact N|]. right.
    eexists _, _. split; [exact Tid | reflexivity].
Qed.

End Discipline.

(** X3.  The calls of one request.  Whatever the request and the provider,
    every version of the handler only appends to the log; what it appends is
    nothing, the search, the search and the creation, the search and the
    booking call, or all three in this order (so never more than three calls,
    never two to one endpoint, never a creation or a booking before the
    search); it generates one key for each creation and each booking call and
    no other; and every call carries the configured token as its bearer. *)
Theorem handler_call_discipline {engine : Engine}
    (version : Version) (config : Config) (req : Request)
    (w : World) (st : State) :
  let st' := snd (handler version config req w st) in
  exists new,
    calls st' = (calls st ++ new)%list
    /\ In (map endpoint new) request_endpoints
    /\ keys_drawn st'
       = (keys_drawn st + count_calls Customers new + count_calls Bookings new)%nat
    /\ Forall (fun c => authorization c = bearer (env_value (TOKEN config))) new.
Proof.
  cbv zeta.
  destruct (handler_calls version config req w st) as (new & C & K & S).
  exists new. split; [exact C|]. split; [|split; [exact K|]].
  - cbv zeta in S. unfold request_endpoints.
    destruct S as [-> | (exact & [-> | [(id & key & _ & ->) |
      (name & key & _ & [-> | (id & key' & _ & ->)])]])]; simpl; auto 6.
  - cbv zeta in S.
    destruct S as [-> | (exact & [-> | [(id & key & _ & ->) |
      (name & key & _ & [-> | (id & key' & _ & ->)])]])];
      repeat constructor.
Qed.

(** X4.  No booking without a customer.  Every booking call that a request
    makes names a truthy customer identifier, and it carries the start time
    of the request and the three configured identifiers as they are, with a
    string for its idempotency key; and a booking call is the last call of
    its request. *)
Theorem booking_calls_name_a_customer {engine : Engine}
    (version : Version) (config : Config) (req : Request)
    (w : World) (st : State) :
  let sent_calls := calls_since st (snd (handler version config req w st)) in
  forall before c after,
    sent_calls = (before ++ c :: after)%list ->
    endpoint c = Bookings ->
    after = []
    /\ truthy (booking_field c "customer_id") = true
    /\ booking_field c "start_at" = start_time req
    /\ booking_field c "location_id" = env_value (LOCATION_ID config)
    /\ segment_field c "service_variation_id" = env_value (SERVICE_ID config)
    /\ segment_field c "team_member_id" = env_value (TEAM_ID config)
    /\ exists key, property (request_body c) "idempotency_key" = JStr key.
Proof.
  cbv zeta. intros before c after E B.
  destruct (handler_calls version config req w st) as (new & C & _ & S).
  rewrite (calls_since_app _ _ new C) in E. cbv zeta in S.
  assert (Hb : forall id key,
            truthy id = true ->
            c = booking_call config key id (start_time req)
                  (env_value (TOKEN config)) ->
            truthy (booking_field c "customer_id") = true
            /\ booking_field c "start_at" = start_time req
            /\ booking_field c "location_id" = env_value (LOCATION_ID config)
            /\ segment_field c "service_variation_id"
               = env_value (SERVICE_ID config)
            /\ segment_field c "team_member_id" = env_value (TEAM_ID config)
            /\ exists key, property (request_body c) "idempotency_key" = JStr key).
  { intros id key T ->. repeat split; try exact T. now exists key. }
  destruct S as [-> | (exact & [-> | [(id & key & T & ->) |
    (name & key & _ & [-> | (id & key' & T & ->)])]])].
  - now destruct before.
  - destruct before as [|x before]; simpl in E.
    + injection E as <- _. discriminate B.
    + injection E as _ E. now destruct before.
  - destruct before as [|x [|y [|z before]]]; simpl in E.
    + injection E as <- _. discriminate B.
    + injection E as _ <- <-. split; [reflexivity|]. now apply (Hb id key).
    + injection E as _ _ E. discriminate E.
    + injection E as _ _ E. discriminate E.
  - destruct before as [|x [|y [|z before]]]; simpl in E.
    + injection E as <- _. discriminate B.
    + injection E as _ <- _. discriminate B.
    + injection E as _ _ E. discriminate E.
    + injection E as _ _ E. discriminate E.
  - destruct before as [|x [|y [|z [|u before]]]]; simpl in E.
    + injection E as <- _. discriminate B.
    + injection E as _ <- _. discriminate B.
    + injection E as _ _ <- <-. split; [reflexivity|]. now apply (Hb id key').
    + injection E as _ _ _ E. discriminate E.
    + injection E as _ _ _ E. discriminate E.
Qed.

(** X5.  A customer that the search finds is booked without a creation.  For
    a request that passes validation, when the search is answered with a body
    from which [first_customer_id] reads a truthy identifier and the booking
    call is answered with a booking, the handler reports success; it has sent
    the search and the booking call and nothing else, the booking call names
    the identifier found, and one key only has been generated.  The name is
    not looked at on this path. *)
Theorem found_customer_is_booked_without_creation {engine : Engine}
    (version : Version) (config : Config) (req : Request)
    (w : World) (st : State)
    (exact id bookingId search_data booking_data booking : JSValue)
    (found booked : Response) :
  handled version req ->
  rejects config req = false ->
  let token := env_value (TOKEN config) in
  let s := search_call exact token in
  let b := booking_call config (next_key BookingKey w (sent s st)) id
             (start_time req) token in
  search_phone version (customer_phone req) = Returned exact ->
  upstream w (calls st) s = Resolved found ->
  (checks_customer_status version = true -> ok found = true) ->
  body found = Json search_data ->
  first_customer_id search_data = Returned id -> truthy id = true ->
  upstream w (calls (sent s st)) b = Resolved booked ->
  ok booked = true -> body booked = Json booking_data ->
  get booking_data "booking" = Returned booking -> truthy booking = true ->
  get booking "id" = Returned bookingId ->
  handler version config req w st
  = (Returned (mkHttp 200 (SendJson
       (envelope (toolCallId req) (success_text version bookingId req)))),
     sent b (drawn (sent s st)))
  /\ calls_since st (sent b (drawn (sent s st))) = [s; b]
  /\ booking_field b "customer_id" = id
  /\ keys_drawn (sent b (drawn (sent s st))) = S (keys_drawn st).
Proof.
  intros H R token s b P Us Fok Fb Fid Tid Ub Bok Bb Bg Bt Bi.
  split; [|split; [|split]]; [| apply calls_since_sent2 | reflexivity | reflexivity].
  apply (handler_succeeded version config req w st _ _ H R).
  unfold try_block, bind. fold token.
  rewrite resolve_customer_run. cbv zeta. rewrite searchCustomer_run, P.
  cbn [fst snd]. unfold awaited at 1. fold s. rewrite Us, Fb.
  assert (O : search_outcome version found search_data = Returned id).
  { unfold search_outcome. destruct (checks_customer_status version).
    - now rewrite (Fok eq_refl).
    - exact Fid. }
  rewrite O, Tid. rewrite createSquareBooking_run. cbv zeta. fold b.
  unfold awaited. cbn [calls drawn]. fold (sent s st).
  change (calls st ++ [s])%list with (calls (sent s st)).
  rewrite Ub, Bb. unfold booking_outcome. rewrite Bok. simpl.
  now rewrite Bg, Bt, Bi.
Qed.

Lemma awaited_transport_fails {A} (w : World) (st : State) (c : Call)
    (msg : string) (k : Response -> JSValue -> Outcome A) :
  transport_fails w st c msg -> awaited w st c k = Thrown (mkError msg).
Proof. unfold awaited. intros [-> | (code & ->)]; reflexivity. Qed.

(** X6.  Failures of the transport.  When the [fetch] of a helper is rejected
    with a reason, or its response has a body that does not parse (whatever
    its status), the helper raises an error with that very message, after the
    call went into the log and (for the creation and the booking) the key was
    generated; this holds for the three helpers in the three versions.  For a
    request that passes validation and whose search fails so, the handler
    answers with the failure envelope built from that message and stops
    there. *)
Theorem transport_failures_are_raised {engine : Engine}
    (version : Version) (config : Config) (w : World) (st : State)
    (msg : string) :
  (forall phone token exact,
     search_phone version phone = Returned exact ->
     transport_fails w st (search_call exact token) msg ->
     searchCustomer version phone token w st
     = (Thrown (mkError msg), sent (search_call exact token) st))
  /\ (forall name phone token,
        let c := customer_call (next_key CustomerKey w st) (split_on_space name)
                   phone token in
        transport_fails w st c msg ->
        createCustomer version (JStr name) phone token w st
        = (Thrown (mkError msg), sent c (drawn st)))
  /\ (forall customerId startTime token,
        let c := booking_call config (next_key BookingKey w st) customerId
                   startTime token in
        transport_fails w st c msg ->
        createSquareBooking version config customerId startTime token w st
        = (Thrown (mkError msg), sent c (drawn st)))
  /\ (forall req exact,
        handled version req -> rejects config req = false ->
        search_phone version (customer_phone req) = Returned exact ->
        let s := search_call exact (env_value (TOKEN config)) in
        transport_fails w st s msg ->
        handler version config req w st
        = (Returned (mkHttp 200 (SendJson
             (envelope (toolCallId req) (failure_text version (mkError msg))))),
           sent s st)).
Proof.
  assert (S : forall phone token exact,
     search_phone version phone = Returned exact ->
     transport_fails w st (search_call exact token) msg ->
     searchCustomer version phone token w st
     = (Thrown (mkError msg), sent (search_call exact token) st)).
  { intros phone token exact P F. rewrite searchCustomer_run, P.
    now rewrite (awaited_transport_fails _ _ _ msg). }
  split; [exact S|]. split; [|split].
  - intros name phone token c F. rewrite createCustomer_run.
    cbn [split_full_name]. cbv zeta. fold c.
    now rewrite (awaited_transport_fails w (drawn st) c msg).
  - intros customerId startTime token c F. rewrite createSquareBooking_run.
    cbv zeta. fold c.
    now rewrite (awaited_transport_fails w (drawn st) c msg).
  - intros req exact H R P s F.
    apply (handler_caught version config req w st _ _ H R).
    unfold try_block, bind. rewrite resolve_customer_run. cbv zeta.
    now rewrite (S _ _ exact P F).
Qed.

Lemma success_prefix_of_success (version : Version) (bookingId : JSValue)
    (req : Request) :
  String.prefix (success_prefix version) (success_text version bookingId req)
  = true.
Proof. destruct version; apply prefix_append. Qed.

Lemma success_prefix_not_failure (version : Version) (e : JSError) :
  String.prefix (success_prefix version) (failure_text version e) = false.
Proof. destruct version; reflexivity. Qed.

Lemma success_prefix_not_rejection (version : Version) :
  String.prefix (success_prefix version) configuration_error = false.
Proof. destruct version; reflexivity. Qed.

(** X7.  Success is reported only after a confirmed booking.  The texts of
    the three kinds of answer begin differently, and whenever the handler
    answers with a text that begins like the success text, the last call it
    sent was a booking call that the provider answered with a success status
    and a body holding a truthy booking object, and the text is the success
    text for the identifier of that booking. *)
Theorem success_means_a_confirmed_booking {engine : Engine}
    (version : Version) (config : Config) (req : Request)
    (w : World) (st st' : State) (r : HttpResponse) (id : JSValue)
    (text : string) :
  handler version config req w st = (Returned r, st') ->
  payload r = SendJson (envelope id text) ->
  String.prefix (success_prefix version) text = true ->
  exists before b booked data booking bookingId,
    calls st' = (before ++ [b])%list
    /\ endpoint b = Bookings
    /\ upstream w before b = Resolved booked
    /\ ok booked = true
    /\ body booked = Json data
    /\ get data "booking" = Returned booking
    /\ truthy booking = true
    /\ get booking "id" = Returned bookingId
    /\ text = success_text version bookingId req.
Proof.
  unfold handler.
  destruct (checks_method version && negb (method req =? "POST")).
  { unfold ret. intros [= <- <-]. discriminate. }
  destruct (rejects config req).
  { unfold respond, ret. intros [= <- <-]. simpl. intros [= <- <-].
    now rewrite success_prefix_not_rejection. }
  unfold try_catch.
  destruct (try_block version config req w st) as [[r'|e] st1] eqn:T.
  2:{ unfold catch_block, respond, ret. intros [= <- <-]. simpl.
      intros [= <- <-]. now rewrite success_prefix_not_failure. }
  intros [= <- <-].
  apply try_block_returned in T as (cid & st0 & bookingId & _ & B & ->).
  simpl. intros [= <- <-] _.
  rewrite createSquareBooking_run in B. cbv zeta in B.
  injection B as B <-.
  unfold awaited in B. cbn [calls drawn] in B.
  match type of B with
  | context [upstream w ?l ?c] =>
      destruct (upstream w l c) as [reason|booked] eqn:U; [discriminate|];
      destruct (body booked) as [bad|data] eqn:Bd; [discriminate|];
      apply booking_outcome_returned in B as (Ok & booking & G & Tb & Gi);
      exists l, c, booked, data, booking, bookingId
  end.
  repeat split; assumption.
Qed.

(** X8.  A name that is not a string.  The validation accepts any truthy
    [customer_name]; when it is not a string and the search returns no
    identifier, [createCustomer] raises the engine's "fullName.split is not a
    function" before it generates a key or sends a call, and the handler
    answers with the failure envelope built from that error, the search being
    the only call sent. *)
Theorem name_that_is_not_a_string_fails_after_the_search {engine : Engine}
    (version : Version) (config : Config) (req : Request)
    (w : World) (st : State) (exact id : JSValue) :
  handled version req ->
  rejects config req = false ->
  (forall name, customer_name req <> JStr name) ->
  search_phone version (customer_phone req) = Returned exact ->
  let s := search_call exact (env_value (TOKEN config)) in
  awaited w st s (search_outcome version) = Returned id ->
  truthy id = false ->
  handler version config req w st
  = (Returned (mkHttp 200 (SendJson
       (envelope (toolCallId req)
          (failure_text version
             (mkError (TypeError_not_a_function "fullName.split")))))),
     sent s st).
Proof.
  intros H R N P s A T.
  assert (Tn : truthy (customer_name req) = true).
  { unfold rejects in R. apply orb_false_iff in R as [R _].
    apply orb_false_iff in R as [R _]. apply orb_false_iff in R as [_ R].
    now apply negb_false_iff in R. }
  apply (handler_caught version config req w st _ _ H R).
  unfold try_block, bind. rewrite resolve_customer_run. cbv zeta.
  rewrite searchCustomer_run, P. cbn [fst snd]. fold s. rewrite A, T.
  rewrite createCustomer_run.
  destruct (customer_name req) as [| |b|n|name|l|l]; try discriminate Tn;
    try reflexivity.
  now elim (N name).
Qed.

(** X9.  The phone number in the two customer calls.  The search of
    [Serverless] filters on the cleaned phone number, the search of the other
    two versions on the phone number as it came; the creation sends the phone
    number as it came in every version.  So in [Serverless] a phone number
    written with anything but digits and plus signs is searched under one
    value and stored under another. *)
Theorem search_and_creation_phone {engine : Engine} (version : Version)
    (name phone : string) (token : JSValue) (w : World) (st : State) :
  exists s c,
    calls_since st (snd (searchCustomer version (JStr phone) token w st)) = [s]
    /\ search_exact s
       = JStr match version with
              | Serverless => replace_non_phone_chars phone
              | _ => phone
              end
    /\ calls_since st
         (snd (createCustomer version (JStr name) (JStr phone) token w st)) = [c]
    /\ property (request_body c) "phone_number" = JStr phone
    /\ (version = Serverless -> is_clean_phone phone = false ->
        search_exact s <> property (request_body c) "phone_number").
Proof.
  rewrite searchCustomer_run, createCustomer_run. cbn [split_full_name].
  cbv zeta. cbn [snd].
  destruct version; cbn [search_phone]; eexists _, _;
    (split; [apply calls_since_sent|]); (split; [reflexivity|]);
    (split; [apply (calls_since_app st); reflexivity|]);
    (split; [reflexivity|]); try discriminate.
  intros _ C. unfold search_exact. simpl. intros [= E].
  assert (K := replace_non_phone_chars_clean phone). rewrite E in K. congruence.
Qed.

(** X10.  The constants of the three versions.  In [Serverless] the token is
    the literal of the source whatever the environment holds, and each of the
    three identifiers is the environment variable when that is set and not
    empty and its placeholder ('INVALID_LOCATION', 'INVALID_SERVICE',
    'INVALID_TEAM') otherwise, so its booking call always carries three
    non-empty identifiers and, the literal not being empty, the token never
    causes a rejection.  In the other two versions the booking call carries
    each of the three variables as it is, [undefined] when it is not set, and
    every request is rejected while SQUARE_TOKEN is not set or empty. *)
Theorem serverless_identifiers_fall_back (token_literal : string)
    (process_env : string -> option string)
    (key : string) (customerId startTime token : JSValue) (req : Request) :
  let serverless := config_serverless token_literal process_env in
  let others := config_from_env process_env in
  let b := booking_call serverless key customerId startTime token in
  let b' := booking_call others key customerId startTime token in
  TOKEN serverless = Some token_literal
  /\ (forall v, process_env "SQUARE_LOCATION_ID" = Some v -> v <> "" ->
        booking_field b "location_id" = JStr v)
  /\ (process_env "SQUARE_LOCATION_ID" = None
      \/ process_env "SQUARE_LOCATION_ID" = Some "" ->
      booking_field b "location_id" = JStr "INVALID_LOCATION")
  /\ (forall v, process_env "SQUARE_SERVICE_ID" = Some v -> v <> "" ->
        segment_field b "service_variation_id" = JStr v)
  /\ (process_env "SQUARE_SERVICE_ID" = None
      \/ process_env "SQUARE_SERVICE_ID" = Some "" ->
      segment_field b "service_variation_id" = JStr "INVALID_SERVICE")
  /\ (forall v, process_env "SQUARE_TEAM_ID" = Some v -> v <> "" ->
        segment_field b "team_member_id" = JStr v)
  /\ (process_env "SQUARE_TEAM_ID" = None
      \/ process_env "SQUARE_TEAM_ID" = Some "" ->
      segment_field b "team_member_id" = JStr "INVALID_TEAM")
  /\ truthy (booking_field b "location_id") = true
  /\ truthy (segment_field b "service_variation_id") = true
  /\ truthy (segment_field b "team_member_id") = true
  /\ (token_literal <> "" ->
      rejects serverless req
      = negb (strict_equal_string (functionName req)
                "schedule_square_appointment")
        || negb (truthy (customer_name req))
        || negb (truthy (service_name req)))
  /\ booking_field b' "location_id"
     = env_value (process_env "SQUARE_LOCATION_ID")
  /\ segment_field b' "service_variation_id"
     = env_value (process_env "SQUARE_SERVICE_ID")
  /\ segment_field b' "team_member_id"
     = env_value (process_env "SQUARE_TEAM_ID")
  /\ (process_env "SQUARE_LOCATION_ID" = None ->
      booking_field b' "location_id" = JUndefined)
  /\ (process_env "SQUARE_SERVICE_ID" = None ->
      segment_field b' "service_variation_id" = JUndefined)
  /\ (process_env "SQUARE_TEAM_ID" = None ->
      segment_field b' "team_member_id" = JUndefined)
  /\ (process_env "SQUARE_TOKEN" = None \/ process_env "SQUARE_TOKEN" = Some "" ->
      rejects others req = true).
Proof.
  cbv zeta.
  assert (E : forall x fb v, x = Some v -> v <> "" ->
            env_value (env_or x fb) = JStr v).
  { intros x fb v -> N. unfold env_or. simpl. apply String.eqb_neq in N.
    now rewrite N. }
  assert (F : forall x fb, x = None \/ x = Some "" ->
            env_value (env_or x fb) = JStr fb).
  { intros x fb [-> | ->]; reflexivity. }
  assert (T : forall x fb, fb <> "" -> truthy (env_value (env_or x fb)) = true).
  { intros x fb N. unfold env_or.
    destruct (truthy (env_value x)) eqn:Tx; [exact Tx|].
    simpl. apply String.eqb_neq in N. now rewrite N. }
  split; [reflexivity|].
  split; [intros v; apply E|]. split; [apply F|].
  split; [intros v; apply E|]. split; [apply F|].
  split; [intros v; apply E|]. split; [apply F|].
  split; [apply T; discriminate|]. split; [apply T; discriminate|].
  split; [apply T; discriminate|].
  split.
  { intros N. unfold rejects. simpl. apply String.eqb_neq in N. rewrite N.
    simpl. now rewrite orb_false_r. }
  split; [reflexivity|]. split; [reflexivity|]. split; [reflexivity|].
  split.
  { intros K. change (env_value (process_env "SQUARE_LOCATION_ID") = JUndefined).
    now rewrite K. }
  split.
  { intros K. change (env_value (process_env "SQUARE_SERVICE_ID") = JUndefined).
    now rewrite K. }
  split.
  { intros K. change (env_value (process_env "SQUARE_TEAM_ID") = JUndefined).
    now rewrite K. }
  intros K. unfold rejects. cbn [config_from_env TOKEN].
  destruct K as [-> | ->]; simpl; now rewrite !orb_true_r.
Qed.

(** X11.  The handler always answers.  Whatever the request and the world,
    no version lets an exception out: it returns a response.  The response is
    status 405 with the text 'Method Not Allowed', and nothing has been done,
    exactly when the version is [Serverless] and the method is not POST; in
    every other case it is status 200 with a [results] array of exactly one
    entry, an object with a [toolCallId] and a [result] string.  The other
    two versions never look at the method. *)
Theorem handler_always_answers {engine : Engine}
    (version : Version) (config : Config) (req : Request)
    (w : World) (st : State) :
  exists r st',
    handler version config req w st = (Returned r, st')
    /\ (version = Serverless /\ method req <> "POST" ->
        r = mkHttp 405 (SendText "Method Not Allowed") /\ st' = st)
    /\ (version <> Serverless \/ method req = "POST" ->
        exists id text,
          r = mkHttp 200 (SendJson (envelope id text))
          /\ result_entries r
             = Some [JObj [("toolCallId", id); ("result", JStr text)]])
    /\ (version <> Serverless ->
        forall m,
          handler version config (mkRequest m (req_body req)) w st
          = handler version config req w st).
Proof.
  assert (M : version <> Serverless ->
              forall m, handler version config (mkRequest m (req_body req)) w st
                        = handler version config req w st).
  { intros N m. destruct version; [reflexivity | reflexivity | now elim N]. }
  destruct (String.eqb_spec (method req) "POST") as [E|N].
  - assert (H : handled version req) by (now intros _).
    destruct (handler_envelope version config req w st H)
      as (id & text & st' & Eh & _).
    eexists _, st'. split; [exact Eh|]. split; [|split; [|exact M]].
    + now intros [_ K].
    + intros _. now exists id, text.
  - destruct version.
    + assert (H : handled RootRoute req) by discriminate.
      destruct (handler_envelope RootRoute config req w st H)
        as (id & text & st' & Eh & _).
      eexists _, st'. split; [exact Eh|]. split; [|split; [|exact M]].
      * now intros [K _].
      * intros _. now exists id, text.
    + assert (H : handled ApiIndexRoute req) by discriminate.
      destruct (handler_envelope ApiIndexRoute config req w st H)
        as (id & text & st' & Eh & _).
      eexists _, st'. split; [exact Eh|]. split; [|split; [|exact M]].
      * now intros [K _].
      * intros _. now exists id, text.
    + eexists _, st. split; [now apply handler_not_post|].
      split; [|split; [|exact M]].
      * now intros _.
      * intros [K|K]; [now elim K | now elim N].
Qed.

(** X12.  What the two customer helpers read from a body.  From the body of
    a search, [first_customer_id] reads [null] when [customers] is missing or
    falsy, when it is an empty array, and when it is [true] or a number; for a
    non-empty array it reads the [id] of the first entry and of no other:
    the [id] property when that entry is an object ([undefined] when it has
    none), [undefined] when the entry is a boolean, a number, a string or an
    array, and a TypeError when the entry is [null] or [undefined]; it raises
    as well when the body itself is [null] or [undefined].  From the body of a
    creation, [created_customer_id] reads [null] when [customer] is missing
    or falsy, and else the [id] of [customer]: the property of an object, and
    [undefined] for a truthy boolean, number, string or array. *)
Theorem customer_identifiers_read_from_bodies {engine : Engine}
    (fields : list (string * JSValue)) :
  let data := JObj fields in
  let customers := lookup "customers" fields in
  let customer := lookup "customer" fields in
  (truthy customers = false -> first_customer_id data = Returned JNull)
  /\ (customers = JArr [] -> first_customer_id data = Returned JNull)
  /\ (customers = JBool true \/ (exists n, customers = JNum n) ->
      first_customer_id data = Returned JNull)
  /\ (forall first rest,
        customers = JArr (first :: rest) ->
        first_customer_id data = get first "id"
        /\ match first with
           | JObj entry => get first "id" = Returned (lookup "id" entry)
           | JUndefined | JNull =>
               get first "id" = Thrown (mkError (TypeError_nullish first "id"))
           | JBool _ | JNum _ | JStr _ | JArr _ =>
               get first "id" = Returned JUndefined
           end)
  /\ first_customer_id JNull
     = Thrown (mkError (TypeError_nullish JNull "customers"))
  /\ first_customer_id JUndefined
     = Thrown (mkError (TypeError_nullish JUndefined "customers"))
  /\ (truthy customer = false -> created_customer_id data = Returned JNull)
  /\ (truthy customer = true ->
      created_customer_id data = get customer "id"
      /\ match customer with
         | JObj entry => get customer "id" = Returned (lookup "id" entry)
         | _ => get customer "id" = Returned JUndefined
         end).
Proof.
  cbv zeta. unfold first_customer_id, created_customer_id. cbn [get property].
  split; [now intros ->|]. split; [now intros ->|].
  split; [intros [-> | (n & ->)]; cbn; [reflexivity|];
          destruct (negb (n =? 0)%Z); reflexivity|].
  split.
  { intros first rest ->. cbn. split; [reflexivity|].
    destruct first; reflexivity. }
  split; [reflexivity|]. split; [reflexivity|].
  split; [now intros ->|].
  intros T. rewrite T. split; [reflexivity|].
  destruct (lookup "customer" fields); try discriminate T; reflexivity.
Qed.


(* ------------------------------------------------------------------ *)
(** * The further theorems at concrete requests *)

(** The booking call of the scenario of the specification. *)
Lemma booking_call_of_jane :
  let c := booking_call sample_config "vapi-booking-1735725600001-k3x9qa"
             (JStr "CUST1") (JStr "2025-01-01T10:00:00Z") (JStr "sq0atp-token") in
  truthy (booking_field c "customer_id") = true
  /\ booking_field c "start_at" = JStr "2025-01-01T10:00:00Z"
  /\ booking_field c "location_id" = JStr "LOC1"
  /\ segment_field c "service_variation_id" = JStr "SVC1"
  /\ segment_field c "team_member_id" = JStr "TEAM1".
Proof.
  destruct (@booking_calls_name_a_customer v8 RootRoute sample_config
              jane_request jane_world initial
              [search_call (JStr "+15551234567") (JStr "sq0atp-token");
               customer_call "vapi-customer-1735725600000-k3x9qa"
                 ["Jane"; "Doe"] (JStr "+15551234567") (JStr "sq0atp-token")]
              (booking_call sample_config "vapi-booking-1735725600001-k3x9qa"
                 (JStr "CUST1") (JStr "2025-01-01T10:00:00Z")
                 (JStr "sq0atp-token"))
              [] eq_refl eq_refl) as (_ & A & B & C & D & E & _).
  repeat split; assumption.
Defined.

(** The request of the scenario when the provider knows the customer. *)
Lemma found_customer_at_jane :
  fst (@handler v8 Serverless sample_config jane_request found_world initial)
  = Returned (mkHttp 200 (SendJson
      (envelope (JStr "abc") "Booking success. ID: BOOK1.")))
  /\ map endpoint
       (calls (snd (@handler v8 Serverless sample_config jane_request
                      found_world initial)))
     = [CustomersSearch; Bookings].
Proof.
  destruct (@found_customer_is_booked_without_creation v8 Serverless
              sample_config jane_request found_world initial
              (JStr "+15551234567") (JStr "CUST7") (JStr "BOOK1")
              (JObj [("customers", JArr [JObj [("id", JStr "CUST7")]])])
              (JObj [("booking", JObj [("id", JStr "BOOK1")])])
              (JObj [("id", JStr "BOOK1")])
              (mkResponse 200
                 (Json (JObj [("customers", JArr [JObj [("id", JStr "CUST7")]])])))
              (mkResponse 200
                 (Json (JObj [("booking", JObj [("id", JStr "BOOK1")])])))
              (fun _ => eq_refl) eq_refl eq_refl eq_refl (fun _ => eq_refl)
              eq_refl eq_refl eq_refl eq_refl eq_refl eq_refl eq_refl eq_refl
              eq_refl) as (A & _).
  rewrite A. split; reflexivity.
Defined.

(** The success of the scenario comes from a confirmed booking. *)
Lemma success_at_jane :
  exists before b booked data booking bookingId,
    calls (snd (@handler v8 RootRoute sample_config jane_request jane_world
                  initial)) = (before ++ [b])%list
    /\ endpoint b = Bookings
    /\ upstream jane_world before b = Resolved booked
    /\ ok booked = true
    /\ body booked = Json data
    /\ @get v8 data "booking" = Returned booking
    /\ truthy booking = true
    /\ @get v8 booking "id" = Returned bookingId
    /\ "Booking success. ID: BOOK1."
       = success_text RootRoute bookingId jane_request.
Proof.
  exact (@success_means_a_confirmed_booking v8 RootRoute sample_config
           jane_request jane_world initial
           (snd (@handler v8 RootRoute sample_config jane_request jane_world
                   initial))
           (mkHttp 200 (SendJson
              (envelope (JStr "abc") "Booking success. ID: BOOK1.")))
           (JStr "abc") "Booking success. ID: BOOK1."
           eq_refl eq_refl eq_refl).
Defined.

(** A request whose name is the number 42, sent to [Serverless]. *)
Lemma numeric_name_at_jane_world :
  @handler v8 Serverless sample_config numeric_name_request jane_world initial
  = (Returned (mkHttp 200 (SendJson (envelope (JStr "abc")
       "Booking failed. Failure Detail: fullName.split is not a function"))),
     sent (search_call (JStr "+15551234567") (JStr "sq0atp-token")) initial).
Proof.
  apply (@name_that_is_not_a_string_fails_after_the_search v8 Serverless
           sample_config numeric_name_request jane_world initial
           (JStr "+15551234567") JNull).
  - intros _. reflexivity.
  - reflexivity.
  - intros name. discriminate.
  - reflexivity.
  - reflexivity.
  - reflexivity.
Defined.

(** X14.  The keys of one request.  When a request makes both a creation
    and a booking call, the creation carries the key generated first and the
    booking call the key generated next, and the two keys differ whatever the
    clock and the random source give, since they begin differently. *)
Theorem keys_of_one_request_differ {engine : Engine}
    (version : Version) (config : Config) (req : Request)
    (w : World) (st : State) (s c b : Call) :
  calls_since st (snd (handler version config req w st)) = [s; c; b] ->
  let n := keys_drawn st in
  property (request_body c) "idempotency_key"
  = JStr (make_key CustomerKey (Date_now w n) (Math_random_suffix w n))
  /\ property (request_body b) "idempotency_key"
     = JStr (make_key BookingKey (Date_now w (S n)) (Math_random_suffix w (S n)))
  /\ property (request_body c) "idempotency_key"
     <> property (request_body b) "idempotency_key".
Proof.
  intros E n.
  assert (K : property (request_body c) "idempotency_key"
              = JStr (make_key CustomerKey (Date_now w n) (Math_random_suffix w n))
              /\ property (request_body b) "idempotency_key"
                 = JStr (make_key BookingKey (Date_now w (S n))
                           (Math_random_suffix w (S n)))).
  { destruct (handler_state version config req w st) as [S0 | (_ & _ & S0 & _)].
    { rewrite S0, calls_since_refl in E. discriminate E. }
    rewrite S0 in E.
    destruct (try_block version config req w st) as [o st'] eqn:T.
    apply try_block_shape in T. cbv zeta in T. cbn [snd] in E.
    destruct T as [[-> _] | (exact & _ & [[-> _] | [(id & Tid & ->) |
      (name & N & [[-> _] | (id & Tid & ->)])]])].
    - rewrite calls_since_refl in E. discriminate E.
    - rewrite calls_since_sent in E. discriminate E.
    - rewrite calls_since_sent2 in E. discriminate E.
    - rewrite calls_since_sent2 in E. discriminate E.
    - rewrite (calls_since_app st _ [search_call exact (env_value (TOKEN config));
                 customer_call
                   (next_key CustomerKey w
                      (sent (search_call exact (env_value (TOKEN config))) st))
                   (split_on_space name) (customer_phone req)
                   (env_value (TOKEN config));
                 booking_call config
                   (next_key BookingKey w
                      (sent
                         (customer_call
                            (next_key CustomerKey w
                               (sent (search_call exact (env_value (TOKEN config))) st))
                            (split_on_space name) (customer_phone req)
                            (env_value (TOKEN config)))
                         (drawn (sent (search_call exact (env_value (TOKEN config))) st))))
                   id (start_time req) (env_value (TOKEN config))]) in E.
      + injection E as _ <- <-. split; reflexivity.
      + simpl. now rewrite <- !app_assoc. }
  destruct K as [Kc Kb]. split; [exact Kc|]. split; [exact Kb|].
  rewrite Kc, Kb. intros F.
  apply (f_equal (fun v => match v with JStr x => x | _ => "" end)) in F.
  cbv beta iota in F. apply make_key_inj in F as [F _]. discriminate F.
Qed.

(** X15.  What is not a success holds no line break.  In [RootRoute] and
    [Serverless], for every handled request and every world, the text of the
    answer either begins like the success text or holds no carriage return and
    no line feed, whatever the message of the error that was caught. *)
Theorem answers_without_success_hold_no_line_break {engine : Engine}
    (version : Version) (config : Config) (req : Request)
    (w : World) (st : State) :
  version <> ApiIndexRoute ->
  handled version req ->
  exists id text st',
    handler version config req w st
    = (Returned (mkHttp 200 (SendJson (envelope id text))), st')
    /\ (String.prefix (success_prefix version) text = true
        \/ no_line_break text = true).
Proof.
  intros N H. rewrite (handler_handled version config req H).
  destruct (rejects config req).
  - eexists _, _, _. split; [reflexivity|]. now right.
  - unfold try_catch.
    destruct (try_block version config req w st) as [[r|e] st'] eqn:T.
    + apply try_block_returned in T as (cid & st1 & bid & _ & _ & ->).
      eexists _, _, _. split; [reflexivity|]. left.
      apply success_prefix_of_success.
    + eexists _, _, _. split; [reflexivity|]. right.
      now apply failure_text_clean.
Qed.

(** The refused booking of two lines, answered by [Serverless]. *)
Lemma answer_at_conflict :
  exists id text st',
    @handler v8 Serverless sample_config jane_request conflict_world initial
    = (Returned (mkHttp 200 (SendJson (envelope id text))), st')
    /\ (String.prefix (success_prefix Serverless) text = true
        \/ no_line_break text = true).
Proof.
  apply (@answers_without_success_hold_no_line_break v8 Serverless
           sample_config jane_request conflict_world initial).
  - discriminate.
  - intros _. reflexivity.
Defined.

(** The two keys of the scenario of the specification. *)
Lemma keys_at_jane :
  let c := customer_call "vapi-customer-1735725600000-k3x9qa"
             ["Jane"; "Doe"] (JStr "+15551234567") (JStr "sq0atp-token") in
  let b := booking_call sample_config "vapi-booking-1735725600001-k3x9qa"
             (JStr "CUST1") (JStr "2025-01-01T10:00:00Z") (JStr "sq0atp-token") in
  property (request_body c) "idempotency_key"
  = JStr (make_key CustomerKey 1735725600000 "k3x9qa")
  /\ property (request_body b) "idempotency_key"
     = JStr (make_key BookingKey 1735725600001 "k3x9qa")
  /\ property (request_body c) "idempotency_key"
     <> property (request_body b) "idempotency_key".
Proof.
  exact (@keys_of_one_request_differ v8 RootRoute sample_config
           jane_request jane_world initial
           (search_call (JStr "+15551234567") (JStr "sq0atp-token"))
           (customer_call "vapi-customer-1735725600000-k3x9qa"
              ["Jane"; "Doe"] (JStr "+15551234567") (JStr "sq0atp-token"))
           (booking_call sample_config "vapi-booking-1735725600001-k3x9qa"
              (JStr "CUST1") (JStr "2025-01-01T10:00:00Z")
              (JStr "sq0atp-token"))
           eq_refl).
Defined.
